(** * xb-date: a shallow embedding of [src/src/date-factory.js]

    The module wraps the JavaScript [Date] primitive.  We first embed the
    parts of that primitive the code uses (ECMAScript 2023, section 21.4:
    time values, the proleptic Gregorian calendar, [Date.UTC], the local
    time constructor, the [setUTC*] setters, [String(number)] and
    [Number(string)]), then the factory [XBDateFactory] and the methods of
    the object it returns, over an explicit heap of [Date] objects so that
    aliasing between Date Values is visible. *)

From Stdlib Require Import ZArith Lia Bool String Ascii List.
From stdpp Require Import base list.
Import ListNotations.
Open Scope string_scope.
Open Scope Z_scope.

(** ** Time values *)

(** A time value: [None] is NaN (an invalid date), [Some t] is [t]
    milliseconds since 1970-01-01T00:00:00Z.  Numbers returned by the
    getters use the same type. *)
Definition num := option Z.

Definition msPerDay : Z := 86400000.
Definition msPerHour : Z := 3600000.
Definition msPerMinute : Z := 60000.
Definition msPerSecond : Z := 1000.
Definition maxTime : Z := 8640000000000000.

(** TimeClip: out of the +-8.64e15 range the value becomes NaN. *)
Definition time_clip (t : num) : num :=
  match t with
  | Some z => if Z.abs z <=? maxTime then Some z else None
  | None => None
  end.

Definition Day (t : Z) : Z := t / msPerDay.
Definition TimeWithinDay (t : Z) : Z := t mod msPerDay.

(** Days since the epoch of a proleptic Gregorian date ([m] in 1..12). *)
Definition days_from_civil (y m d : Z) : Z :=
  let y' := if m <=? 2 then y - 1 else y in
  let era := y' / 400 in
  let yoe := y' - era * 400 in
  let mp := if 2 <? m then m - 3 else m + 9 in
  let doy := (153 * mp + 2) / 5 + d - 1 in
  let doe := yoe * 365 + yoe / 4 - yoe / 100 + doy in
  era * 146097 + doe - 719468.

(** The inverse: year, month (1..12) and day of month of a day number.
    This is YearFromTime, MonthFromTime + 1 and DateFromTime of the
    ECMAScript calendar. *)
Definition civil_from_days (z : Z) : Z * Z * Z :=
  let z' := z + 719468 in
  let era := z' / 146097 in
  let doe := z' - era * 146097 in
  let yoe := (doe - doe / 1460 + doe / 36524 - doe / 146096) / 365 in
  let doy := doe - (365 * yoe + yoe / 4 - yoe / 100) in
  let mp := (5 * doy + 2) / 153 in
  let d := doy - (153 * mp + 2) / 5 + 1 in
  let m := if mp <? 10 then mp + 3 else mp - 9 in
  (yoe + era * 400 + (if m <=? 2 then 1 else 0), m, d).

Definition YearFromTime (t : Z) : Z := fst (fst (civil_from_days (Day t))).
(** zero-based, as [getUTCMonth] *)
Definition MonthFromTime (t : Z) : Z := snd (fst (civil_from_days (Day t))) - 1.
Definition DateFromTime (t : Z) : Z := snd (civil_from_days (Day t)).
Definition WeekDay (t : Z) : Z := (Day t + 4) mod 7.
Definition HourFromTime (t : Z) : Z := (t / msPerHour) mod 24.
Definition MinFromTime (t : Z) : Z := (t / msPerMinute) mod 60.
Definition SecFromTime (t : Z) : Z := (t / msPerSecond) mod 60.
Definition msFromTime (t : Z) : Z := t mod msPerSecond.

(** MakeDay, MakeTime and MakeDate (NaN in, NaN out). *)
Definition MakeDay (year month date : num) : num :=
  match year, month, date with
  | Some y, Some m, Some dt =>
      let ym := y + m / 12 in
      let mn := m mod 12 in
      Some (days_from_civil ym (mn + 1) 1 + dt - 1)
  | _, _, _ => None
  end.

Definition MakeTime (hour min sec ms : num) : num :=
  match hour, min, sec, ms with
  | Some h, Some m, Some s, Some milli =>
      Some (h * msPerHour + m * msPerMinute + s * msPerSecond + milli)
  | _, _, _, _ => None
  end.

Definition MakeDate (day time : num) : num :=
  match day, time with
  | Some d, Some t => Some (d * msPerDay + t)
  | _, _ => None
  end.

(** [Date.UTC] and [new Date(y, m, ...)] map a year 0..99 to 1900..1999. *)
Definition full_year (y : num) : num :=
  match y with
  | Some v => if (0 <=? v) && (v <=? 99) then Some (1900 + v) else Some v
  | None => None
  end.

(** [Date.UTC(year, month, date, hours, minutes, seconds, ms)] *)
Definition Date_UTC (y m d h mi s ms : num) : num :=
  time_clip (MakeDate (MakeDay (full_year y) m d) (MakeTime h mi s ms)).

(** The host: the current time, the date-string parser of the engine and
    the (fixed) offset of the local time zone, in milliseconds. *)
Record host := mk_host {
  h_now : Z;
  h_parse : string -> num;
  h_offset : Z
}.

(** [new Date(y, m, d, h, mi, s, ms)]: the fields are local time, UTC(t) is
    [t - offset] for a host with a fixed offset. *)
Definition Date_local (H : host) (y m d h mi s ms : num) : num :=
  time_clip (option_map (fun t => t - h_offset H)
               (MakeDate (MakeDay (full_year y) m d) (MakeTime h mi s ms))).

(** The UTC getters of a [Date] object holding time value [t]. *)
Definition getUTCFullYear (t : num) : num := option_map YearFromTime t.
Definition getUTCMonth (t : num) : num := option_map MonthFromTime t.
Definition getUTCDate (t : num) : num := option_map DateFromTime t.
Definition getUTCDay (t : num) : num := option_map WeekDay t.
Definition getUTCHours (t : num) : num := option_map HourFromTime t.
Definition getUTCMinutes (t : num) : num := option_map MinFromTime t.
Definition getUTCSeconds (t : num) : num := option_map SecFromTime t.
Definition getUTCMilliseconds (t : num) : num := option_map msFromTime t.

(** [setUTCFullYear(year)]: a NaN receiver is first taken as [+0]. *)
Definition setUTCFullYear (t : num) (year : num) : num :=
  let t0 := match t with Some z => z | None => 0 end in
  time_clip (MakeDate (MakeDay year (Some (MonthFromTime t0)) (Some (DateFromTime t0)))
                      (Some (TimeWithinDay t0))).

(** [setUTCMonth(month)] *)
Definition setUTCMonth (t : num) (month : num) : num :=
  match t with
  | None => None
  | Some z =>
      time_clip (MakeDate (MakeDay (Some (YearFromTime z)) month (Some (DateFromTime z)))
                          (Some (TimeWithinDay z)))
  end.

(** [setUTCDate(date)] *)
Definition setUTCDate (t : num) (date : num) : num :=
  match t with
  | None => None
  | Some z =>
      time_clip (MakeDate (MakeDay (Some (YearFromTime z)) (Some (MonthFromTime z)) date)
                          (Some (TimeWithinDay z)))
  end.

Definition num_add (a : num) (b : Z) : num := option_map (fun x => x + b) a.

(** ** Numbers and strings *)

Definition digit_char (n : Z) : ascii := ascii_of_nat (48 + Z.to_nat n).

(** Decimal digits of [n >= 0] in front of [acc]; [fuel] bounds the number
    of digits. *)
Fixpoint pos_digits (fuel : nat) (n : Z) (acc : string) : string :=
  match fuel with
  | O => acc
  | S f =>
      if n <? 10 then String (digit_char n) acc
      else pos_digits f (n / 10) (String (digit_char (n mod 10)) acc)
  end.

Definition digits_fuel (n : Z) : nat := S (Z.to_nat (Z.log2 n)).

(** [String(x)] for an integral Number [x] (no exponent notation is
    reached by the values of this module). *)
Definition number_to_string (x : num) : string :=
  match x with
  | None => "NaN"
  | Some n =>
      if n <? 0 then String "-" (pos_digits (digits_fuel (- n)) (- n) EmptyString)
      else pos_digits (digits_fuel n) n EmptyString
  end.

(** [str.padStart(maxLength, fill)] for a one-character [fill]. *)
Definition padStart (s : string) (maxLength : nat) (fill : ascii) : string :=
  String.append (String.concat "" (repeat (String fill EmptyString) (maxLength - String.length s)))
                s.

Definition is_digit (c : ascii) : bool :=
  (48 <=? nat_of_ascii c)%nat && (nat_of_ascii c <=? 57)%nat.

Definition digit_value (c : ascii) : Z := Z.of_nat (nat_of_ascii c) - 48.

Fixpoint parse_digits (acc : Z) (s : string) : num :=
  match s with
  | EmptyString => Some acc
  | String c r => if is_digit c then parse_digits (acc * 10 + digit_value c) r else None
  end.

(** [Number(str)] on the strings this module builds: the empty string is
    [0], a decimal integer literal with an optional minus sign is its
    value, anything else (such as ["NaNNaNNaN"]) is NaN. *)
Definition js_number (s : string) : num :=
  match s with
  | EmptyString => Some 0
  | String c r =>
      if Ascii.eqb c "-"%char then
        match r with
        | EmptyString => None
        | _ => option_map Z.opp (parse_digits 0 r)
        end
      else parse_digits 0 s
  end.

(** ** Heap of [Date] objects and the effects of the code *)

(** A [Date] object is a mutable cell holding a time value; its address
    is its index in the heap. *)
Definition loc := nat.
Definition heap := list num.

Inductive outcome (A : Type) : Type :=
| Ok (a : A) (h : heap)
| Throw (error : string).
Arguments Ok {A} a h.
Arguments Throw {A} error.

(** State and exceptions: every method runs on the heap and may throw. *)
Definition M (A : Type) : Type := heap -> outcome A.

Definition ret {A} (a : A) : M A := fun h => Ok a h.
Definition bind {A B} (m : M A) (k : A -> M B) : M B :=
  fun h => match m h with Ok a h' => k a h' | Throw e => Throw e end.
Definition throw {A} (e : string) : M A := fun _ => Throw e.

Notation "x <- m ;; k" := (bind m (fun x => k))
  (at level 100, m at next level, right associativity).

Definition alloc (t : num) : M loc := fun h => Ok (length h) (h ++ [t])%list.
Definition read (l : loc) : M num :=
  fun h => match h !! l with Some t => Ok t h | None => Throw "ReferenceError" end.
Definition write (l : loc) (t : num) : M unit :=
  fun h => match h !! l with Some _ => Ok tt (<[l := t]> h) | None => Throw "ReferenceError" end.

(** JavaScript values the methods return: a raw [Date] object, or a Date
    Value (the object built by [XBDateFactory]), known by the [Date]
    object [utcDate] its closures share. *)
Inductive jsval :=
| VDate (l : loc)
| VXB (l : loc).

(** ** The factory and the Date Value methods *)

(** What [dateArg] can be: absent ([null] or [undefined]), a number, a
    date string, or a [Date] object. *)
Inductive input_date :=
| InAbsent
| InNumber (n : Z)
| InString (s : string)
| InDate (l : loc).

(** [DateUnit]: the precisions of [is]. *)
Inductive date_unit := unit_year | unit_month | unit_day.

(** The record [values] passed to [set]: [None] is an omitted key (a
    [null] or [undefined] argument has every key omitted). *)
Record set_values := mk_set_values {
  sv_year : option Z;
  sv_month : option Z;
  sv_day : option Z
}.

Definition no_values : set_values := mk_set_values None None None.

(** Modelled from the spec: the constraints of [./date-constraints] (not
    in the sources): a single date, an inclusive range, or a predicate,
    which receives the candidate Date Value and runs on the heap. *)
Inductive constraint :=
| CDate (date : input_date)
| CRange (start end_ : input_date)
| CPred (p : loc -> M bool).

Section Host.
Variable H : host.

(** The time value of [new Date()] ([InAbsent]) or [new Date(dateArg)]:
    ECMAScript applies TimeClip to the value in every case. *)
Definition new_Date (i : input_date) : M num :=
  match i with
  | InAbsent => ret (time_clip (Some (h_now H)))
  | InNumber n => ret (time_clip (Some n))
  | InString s => ret (time_clip (h_parse H s))
  | InDate l => t <- read l ;; ret (time_clip t)
  end.

(** [{ ...DEFAULT_OPTIONS, ...optionsArg }].normalize, where [optionsArg]
    is the [normalize] key of the options argument ([None]: absent). *)
Definition options_normalize (optionsArg : option bool) : bool :=
  match optionsArg with Some b => b | None => true end.

(** The time value [normalizeToUTC] builds from [date]. *)
Definition normalizeToUTC (date : num) (normalize : bool) : num :=
  Date_UTC (getUTCFullYear date) (getUTCMonth date) (getUTCDate date)
    (if normalize then Some 12 else getUTCHours date)
    (if normalize then Some 0 else getUTCMinutes date)
    (if normalize then Some 0 else getUTCSeconds date)
    (if normalize then Some 0 else getUTCMilliseconds date).

(** [XBDateFactory(dateArg, optionsArg)]: allocates the [Date] object
    [utcDate] of the new Date Value and returns it (the discarded
    [new Date()] of an input that is present is not allocated). *)
Definition XBDateFactory (dateArg : input_date) (optionsArg : option bool) : M loc :=
  date <- new_Date dateArg ;;
  alloc (time_clip (normalizeToUTC date (options_normalize optionsArg))).

(** The accessors of a Date Value whose [utcDate] is [l]. *)
Definition get (l : loc) : M jsval := ret (VDate l).
Definition getter (g : num -> num) (l : loc) : M num := t <- read l ;; ret (g t).
Definition getYear := getter getUTCFullYear.
Definition getMonth := getter getUTCMonth.
Definition getDate := getter getUTCDate.
Definition getTime := getter (fun t => t).
Definition getWeekday := getter getUTCDay.
Definition getHours := getter getUTCHours.
Definition getMinutes := getter getUTCMinutes.
Definition getSeconds := getter getUTCSeconds.

(** [increment[u]] for [increment = { year: 0, month: 0, day: 0, [unit]: value }] *)
Definition increment (unit : string) (value : Z) (u : string) : Z :=
  if String.eqb u unit then value else 0.

(** The helper [add(date, unit, value)].  Its [date] must be a [Date]
    object: on a Date Value, [date.getUTCFullYear] is [undefined] and the
    call throws. *)
Definition add (date : jsval) (unit : string) (value : Z) : M jsval :=
  match date with
  | VXB _ => throw "TypeError: date.getUTCFullYear is not a function"
  | VDate d =>
      t <- read d ;;
      newDate <- alloc (Date_local H
                          (num_add (getUTCFullYear t) (increment unit value "year"))
                          (num_add (getUTCMonth t) (increment unit value "month"))
                          (num_add (getUTCDate t) (increment unit value "day"))
                          (getUTCHours t) (getUTCMinutes t) (getUTCSeconds t)
                          (getUTCMilliseconds t)) ;;
      x <- XBDateFactory (InDate newDate) None ;;
      ret (VXB x)
  end.

(** [Object.keys(m).reduce((acc, key) => f(acc, key, m[key]), init)] for
    [m] given as its list of entries in key order. *)
Fixpoint reduce_keys (f : jsval -> string -> Z -> M jsval) (acc : jsval)
    (entries : list (string * Z)) : M jsval :=
  match entries with
  | [] => ret acc
  | (k, v) :: rest => acc' <- f acc k v ;; reduce_keys f acc' rest
  end.

(** The methods [add(summands)] and [subtract(subtrahends)]; [None] is an
    absent mapping ([summands || []]). *)
Definition xb_add (l : loc) (summands : option (list (string * Z))) : M jsval :=
  reduce_keys (fun newDate key v => add newDate key v) (VDate l)
    (match summands with Some m => m | None => [] end).

Definition xb_subtract (l : loc) (subtrahends : option (list (string * Z))) : M jsval :=
  reduce_keys (fun newDate key v => add newDate key (-1 * v)) (VDate l)
    (match subtrahends with Some m => m | None => [] end).

(** The method [set(values)]: the three setters run one after the other
    on [utcDate]; [this] is the receiver. *)
Definition xb_set (l : loc) (values : set_values) : M jsval :=
  t <- read l ;;
  let year := match sv_year values with Some v => Some v | None => getUTCFullYear t end in
  let month := match sv_month values with Some v => Some v | None => getUTCMonth t end in
  let day := match sv_day values with Some v => Some v | None => getUTCDate t end in
  t1 <- read l ;; u1 <- write l (setUTCFullYear t1 year) ;;
  t2 <- read l ;; u2 <- write l (setUTCMonth t2 month) ;;
  t3 <- read l ;; u3 <- write l (setUTCDate t3 day) ;;
  ret (VXB l).

(** [getSafeOperator()] of [is] *)
Definition getSafeOperator (operator : string) : string :=
  if negb (existsb (String.eqb operator) [">="; ">"; "="; "<"; "<="])
     || String.eqb operator "="
  then "===" else operator.

(** [padded(value, maxLength)] *)
Definition padded (value : num) (maxLength : nat) : string :=
  padStart (number_to_string value) maxLength "0"%char.

(** [COMPARE_TO[precision]] *)
Definition COMPARE_TO (precision : date_unit) : nat :=
  match precision with unit_year => 1 | unit_month => 2 | unit_day => 3 end.

(** [getComparableDate(date, precision)] *)
Definition getComparableDate (date : num) (precision : date_unit) : string :=
  String.concat ""
    (firstn (COMPARE_TO precision)
       [number_to_string (getUTCFullYear date);
        padded (getUTCMonth date) 2;
        padded (getUTCDate date) 2]).

(** The value of the expression [a op b] that [compare] evaluates, for the
    operators [getSafeOperator] returns (the last case is [===]); every
    comparison with NaN is false. *)
Definition compare (op : string) (a b : num) : bool :=
  match a, b with
  | Some x, Some y =>
      if String.eqb op ">=" then x >=? y
      else if String.eqb op ">" then x >? y
      else if String.eqb op "<" then x <? y
      else if String.eqb op "<=" then x <=? y
      else x =? y
  | _, _ => false
  end.

(** The method [is(operator, otherDate, precision)], [otherDate] being
    the Date Value whose [utcDate] is [otherDate]. *)
Definition xb_is (l : loc) (operator : string) (otherDate : loc) (precision : date_unit)
    : M bool :=
  t <- read l ;;
  o <- read otherDate ;;
  ret (compare (getSafeOperator operator)
         (js_number (getComparableDate t precision))
         (js_number (getComparableDate o precision))).

(** Modelled from the spec: [isEmpty] (not in the sources) is true iff the
    sequence has no element. *)
Definition isEmpty {A} (s : list A) : bool :=
  match s with [] => true | _ => false end.

Definition num_le (a b : num) : bool :=
  match a, b with Some x, Some y => x <=? y | _, _ => false end.

(** Modelled from the spec: [getConstraintEvaluator] of
    [./date-constraints] (not in the sources).  A predicate is returned
    unchanged; a range is true iff the day-precision comparable value of
    the candidate lies between those of [start] and [end], inclusive; a
    single date is true iff the candidate has its UTC year, month and day. *)
Definition getConstraintEvaluator (c : constraint) : loc -> M bool :=
  match c with
  | CPred p => p
  | CRange s e =>
      fun candidate =>
        t <- read candidate ;; ts <- new_Date s ;; te <- new_Date e ;;
        let v := js_number (getComparableDate t unit_day) in
        ret (num_le (js_number (getComparableDate ts unit_day)) v
             && num_le v (js_number (getComparableDate te unit_day)))
  | CDate d =>
      fun candidate =>
        t <- read candidate ;; td <- new_Date d ;;
        ret (match t, td with
             | Some x, Some y =>
                 (YearFromTime x =? YearFromTime y) && (MonthFromTime x =? MonthFromTime y)
                 && (DateFromTime x =? DateFromTime y)
             | _, _ => false
             end)
  end.

(** [evaluators.some(evaluator => evaluator(date))] *)
Fixpoint array_some (evaluators : list (loc -> M bool)) (date : loc) : M bool :=
  match evaluators with
  | [] => ret false
  | e :: rest => b <- e date ;; if b then ret true else array_some rest date
  end.

(** The method [matches(...constraints)]. *)
Definition xb_matches (l : loc) (constraints : list constraint) : M bool :=
  if isEmpty constraints then ret false
  else
    let constraintEvaluators := map getConstraintEvaluator constraints in
    date <- XBDateFactory (InDate l) None ;;
    array_some constraintEvaluators date.

End Host.

(** [Date.prototype.toISOString] (ECMAScript, Date Time String Format):
    a RangeError on the invalid date; otherwise
    [YYYY-MM-DDTHH:mm:ss.sssZ] of the UTC fields, the year written with
    four digits in 0..9999 and as a sign and six digits outside. *)
Definition iso_year (y : Z) : string :=
  if (0 <=? y) && (y <=? 9999) then padStart (number_to_string (Some y)) 4 "0"
  else String (if y <? 0 then "-" else "+") (padStart (number_to_string (Some (Z.abs y))) 6 "0").

Definition toISOString (t : num) : M string :=
  match t with
  | None => throw "RangeError"
  | Some z =>
      ret (iso_year (YearFromTime z) ++ "-" ++ padded (Some (MonthFromTime z + 1)) 2 ++ "-"
           ++ padded (Some (DateFromTime z)) 2 ++ "T" ++ padded (Some (HourFromTime z)) 2 ++ ":"
           ++ padded (Some (MinFromTime z)) 2 ++ ":" ++ padded (Some (SecFromTime z)) 2 ++ "."
           ++ padded (Some (msFromTime z)) 3 ++ "Z")%string
  end.

(** The method [toString()]. *)
Definition xb_toString (l : loc) : M string :=
  t <- read l ;; toISOString t.

(** Hosts with a fixed UTC offset (in milliseconds), used for concrete
    runs; their date-string parser is not exercised (it rejects every
    string) and their clock reads 2024-03-15T12:00:00Z. *)
Definition fixed_offset_host (offset : Z) : host :=
  mk_host 1710504000000 (fun _ => None) offset.

Definition host_utc : host := fixed_offset_host 0.
(** Pacific/Tongatapu, UTC+13 all year. *)
Definition host_tonga : host := fixed_offset_host (13 * msPerHour).

(** 2024-03-15T12:00:00.000Z *)
Definition mar15_2024_noon : Z := 1710504000000.

(** Calendar order at a precision: the UTC (year, month, day) of a time
    value truncated to the precision, compared lexicographically. *)
Definition calendar_key (precision : date_unit) (t : Z) : list Z :=
  firstn (COMPARE_TO precision) [YearFromTime t; MonthFromTime t; DateFromTime t].

Fixpoint lex_compare (a b : list Z) : comparison :=
  match a, b with
  | x :: a', y :: b' => match Z.compare x y with Eq => lex_compare a' b' | c => c end
  | [], [] => Eq
  | [], _ => Lt
  | _, [] => Gt
  end.

(** The truth of [a op b] read off the order of [a] and [b]. *)
Definition op_on_order (op : string) (c : comparison) : bool :=
  if String.eqb op ">=" then match c with Lt => false | _ => true end
  else if String.eqb op ">" then match c with Gt => true | _ => false end
  else if String.eqb op "<" then match c with Lt => true | _ => false end
  else if String.eqb op "<=" then match c with Gt => false | _ => true end
  else match c with Eq => true | _ => false end.

(** Noon of 0001-01-01 BCE (year -1) and of -0001-06-10. *)
Definition neg_year_jan1 : Z := days_from_civil (-1) 1 1 * msPerDay + 12 * msPerHour.
Definition neg_year_jun10 : Z := days_from_civil (-1) 6 10 * msPerDay + 12 * msPerHour.

(** [f z && f (z + 1) && ... && f (z + n - 1)] *)
Fixpoint all_from (f : Z -> bool) (n : nat) (z : Z) : bool :=
  match n with O => true | S k => f z && all_from f k (z + 1) end.

(** [padded(m)] is two digits of value [m]. *)
Definition pad_ok (m : Z) : bool :=
  match padded (Some m) 2 with
  | String c1 (String c2 EmptyString) =>
      is_digit c1 && is_digit c2 && (digit_value c1 * 10 + digit_value c2 =? m)
  | _ => false
  end.

(** 2024-01-31T12:00:00.000Z *)
Definition jan31_2024_noon : Z := 1706702400000.

(** A predicate constraint: [d => d.getHours() === 12]. *)
Definition hours_is_noon (c : loc) : M bool :=
  t <- read c ;;
  ret (match getUTCHours t with Some x => x =? 12 | None => false end).

(** The strict equality [a === b] of two Numbers. *)
Definition num_strict_eq (a b : num) : bool :=
  match a, b with Some x, Some y => x =? y | _, _ => false end.

(** An evaluator that writes only into the Date Value it receives (it may
    allocate new ones). *)
Definition frames (e : loc -> M bool) : Prop :=
  forall c h b h', e c h = Ok b h' ->
    (length h <= length h')%nat /\
    forall l', l' <> c -> (l' < length h)%nat -> h' !! l' = h !! l'.

(** * Lemmas on the calendar *)

Lemma era_bounds (doe : Z) : 0 <= doe <= 146096 ->
  let yoe := (doe - doe / 1460 + doe / 36524 - doe / 146096) / 365 in
  0 <= yoe <= 399 /\ 0 <= doe - (365 * yoe + yoe / 4 - yoe / 100) <= 365.
Proof. intros Hd yoe. subst yoe. Z.div_mod_to_equations. lia. Qed.

Lemma doy_bounds (doy : Z) : 0 <= doy <= 365 ->
  let mp := (5 * doy + 2) / 153 in
  0 <= mp <= 11 /\ 1 <= doy - (153 * mp + 2) / 5 + 1 <= 31.
Proof. intros Hd mp. subst mp. Z.div_mod_to_equations. lia. Qed.

(** [civil_from_days] gives a month in 1..12 and a day in 1..31, and
    [days_from_civil] inverts it. *)
Lemma days_from_civil_of_days (z : Z) :
  let '(y, m, d) := civil_from_days z in
  1 <= m <= 12 /\ 1 <= d <= 31 /\ days_from_civil y m d = z.
Proof.
  unfold civil_from_days.
  set (era := (z + 719468) / 146097).
  set (doe := z + 719468 - era * 146097).
  assert (Hdoe : 0 <= doe <= 146096) by (subst doe era; Z.div_mod_to_equations; lia).
  pose proof (era_bounds doe Hdoe) as Hy. cbv zeta in Hy.
  set (yoe := (doe - doe / 1460 + doe / 36524 - doe / 146096) / 365) in *.
  set (doy := doe - (365 * yoe + yoe / 4 - yoe / 100)) in *.
  destruct Hy as [Hyoe Hdoy].
  pose proof (doy_bounds doy Hdoy) as Hm. cbv zeta in Hm.
  set (mp := (5 * doy + 2) / 153) in *.
  set (d := doy - (153 * mp + 2) / 5 + 1) in *.
  destruct Hm as [Hmp Hdd].
  unfold days_from_civil.
  assert (Hera : (yoe + era * 400) / 400 = era).
  { rewrite Z.div_add by lia. rewrite Z.div_small by lia. lia. }
  destruct (Z.ltb_spec mp 10) as [Hlt | Hge].
  - assert (E1 : (mp + 3 <=? 2) = false) by (apply Z.leb_gt; lia).
    assert (E2 : (2 <? mp + 3) = true) by (apply Z.ltb_lt; lia).
    rewrite E1, E2.
    replace (yoe + era * 400 + 0) with (yoe + era * 400) by lia.
    rewrite Hera.
    replace (mp + 3 - 3) with mp by lia.
    replace (yoe + era * 400 - era * 400) with yoe by lia.
    split; [lia | split; [lia |]].
    subst d doy doe. lia.
  - assert (E1 : (mp - 9 <=? 2) = true) by (apply Z.leb_le; lia).
    assert (E2 : (2 <? mp - 9) = false) by (apply Z.ltb_ge; lia).
    rewrite E1, E2.
    replace (yoe + era * 400 + 1 - 1) with (yoe + era * 400) by lia.
    rewrite Hera.
    replace (mp - 9 + 9) with mp by lia.
    replace (yoe + era * 400 - era * 400) with yoe by lia.
    split; [lia | split; [lia |]].
    subst d doy doe. lia.
Qed.

Lemma month_date_range (t : Z) :
  0 <= MonthFromTime t <= 11 /\ 1 <= DateFromTime t <= 31.
Proof.
  unfold MonthFromTime, DateFromTime.
  pose proof (days_from_civil_of_days (Day t)) as Hc.
  destruct (civil_from_days (Day t)) as [[y m] d]; simpl. lia.
Qed.

Lemma days_from_civil_date (y m d : Z) :
  days_from_civil y m d = days_from_civil y m 1 + d - 1.
Proof. unfold days_from_civil. lia. Qed.

(** MakeDay of the UTC calendar fields of [t] is the day of [t]. *)
Lemma MakeDay_fields (t : Z) :
  MakeDay (Some (YearFromTime t)) (Some (MonthFromTime t)) (Some (DateFromTime t))
  = Some (Day t).
Proof.
  pose proof (month_date_range t) as Hr.
  unfold MakeDay, YearFromTime, MonthFromTime, DateFromTime in *.
  pose proof (days_from_civil_of_days (Day t)) as Hc.
  destruct (civil_from_days (Day t)) as [[y m] d]; simpl in *.
  destruct Hc as (Hm & Hd & E).
  rewrite Z.div_small by lia. rewrite Z.mod_small by lia.
  f_equal. rewrite (days_from_civil_date y m d) in E.
  replace (y + 0) with y by lia. replace (m - 1 + 1) with m by lia. lia.
Qed.

(** Days of the years 1900..1999. *)
Lemma days_from_civil_1900s (y m d : Z) :
  1900 <= y <= 1999 -> 1 <= m <= 12 -> 1 <= d <= 31 ->
  -100000 <= days_from_civil y m d <= 100000.
Proof. intros. unfold days_from_civil. destruct (m <=? 2), (2 <? m); Z.div_mod_to_equations; lia. Qed.

Lemma time_fields_of_day (k tod : Z) : 0 <= tod < msPerDay ->
  HourFromTime (k * msPerDay + tod) = HourFromTime tod /\
  MinFromTime (k * msPerDay + tod) = MinFromTime tod /\
  SecFromTime (k * msPerDay + tod) = SecFromTime tod /\
  msFromTime (k * msPerDay + tod) = msFromTime tod.
Proof.
  intros Ht. unfold HourFromTime, MinFromTime, SecFromTime, msFromTime,
    msPerDay, msPerHour, msPerMinute, msPerSecond in *.
  repeat split.
  - replace (k * 86400000 + tod) with (tod + (k * 24) * 3600000) by lia.
    rewrite Z.div_add by lia. apply Z_mod_plus_full.
  - replace (k * 86400000 + tod) with (tod + (k * 1440) * 60000) by lia.
    rewrite Z.div_add by lia. replace (k * 1440) with (k * 24 * 60) by lia.
    apply Z_mod_plus_full.
  - replace (k * 86400000 + tod) with (tod + (k * 86400) * 1000) by lia.
    rewrite Z.div_add by lia. replace (k * 86400) with (k * 1440 * 60) by lia.
    apply Z_mod_plus_full.
  - replace (k * 86400000 + tod) with (tod + (k * 86400) * 1000) by lia.
    apply Z_mod_plus_full.
Qed.

(** The time of day rebuilt from the UTC fields of [t] is [TimeWithinDay t]. *)
Lemma MakeTime_fields (t : Z) :
  MakeTime (Some (HourFromTime t)) (Some (MinFromTime t)) (Some (SecFromTime t))
           (Some (msFromTime t)) = Some (TimeWithinDay t).
Proof.
  unfold MakeTime, HourFromTime, MinFromTime, SecFromTime, msFromTime, TimeWithinDay,
    msPerDay, msPerHour, msPerMinute, msPerSecond.
  f_equal. Z.div_mod_to_equations. lia.
Qed.

Lemma time_clip_idem (t : num) : time_clip (time_clip t) = time_clip t.
Proof.
  destruct t as [z|]; simpl; [|reflexivity].
  destruct (Z.abs z <=? maxTime) eqn:E; simpl; [rewrite E|]; reflexivity.
Qed.

Lemma time_clip_in (z : Z) : Z.abs z <= maxTime -> time_clip (Some z) = Some z.
Proof. intros Hz. simpl. apply Z.leb_le in Hz. rewrite Hz. reflexivity. Qed.

(** The time value [normalizeToUTC] builds from a valid [t]: the day of
    [t] (or, for a year 0..99, a day of 1900..1999) at noon, or at the
    time of day of [t]. *)
Lemma normalizeToUTC_value (t : Z) (norm : bool) :
  exists k, (k = Day t \/ -100000 <= k <= 100000) /\
    normalizeToUTC (Some t) norm
    = time_clip (Some (k * msPerDay + (if norm then 12 * msPerHour else TimeWithinDay t))).
Proof.
  pose proof (month_date_range t) as Hr.
  unfold normalizeToUTC, Date_UTC.
  unfold getUTCFullYear, getUTCMonth, getUTCDate; simpl option_map.
  assert (Htime : MakeTime (if norm then Some 12 else getUTCHours (Some t))
                    (if norm then Some 0 else getUTCMinutes (Some t))
                    (if norm then Some 0 else getUTCSeconds (Some t))
                    (if norm then Some 0 else getUTCMilliseconds (Some t))
                  = Some (if norm then 12 * msPerHour else TimeWithinDay t)).
  { destruct norm; [reflexivity | apply MakeTime_fields]. }
  rewrite Htime. unfold full_year.
  destruct ((0 <=? YearFromTime t) && (YearFromTime t <=? 99)) eqn:Ey.
  - apply andb_prop in Ey as [Ey1 Ey2]. apply Z.leb_le in Ey1, Ey2.
    exists (days_from_civil (1900 + YearFromTime t) (MonthFromTime t + 1) (DateFromTime t)).
    split.
    + right. apply days_from_civil_1900s; lia.
    + cbv beta iota zeta delta [MakeDay]. rewrite Z.div_small by lia. rewrite Z.mod_small by lia.
      rewrite (days_from_civil_date _ _ (DateFromTime t)).
      replace (1900 + YearFromTime t + 0) with (1900 + YearFromTime t) by lia.
      reflexivity.
  - exists (Day t). split; [left; reflexivity|].
    rewrite MakeDay_fields. reflexivity.
Qed.

Lemma new_Date_clipped (H : host) (i : input_date) (h h' : heap) (t : Z) :
  new_Date H i h = Ok (Some t) h' -> Z.abs t <= maxTime /\ h' = h.
Proof.
  unfold new_Date, bind, ret, read.
  assert (Hc : forall u, time_clip u = Some t -> Z.abs t <= maxTime).
  { intros [z|] Hu; simpl in Hu; [|discriminate].
    destruct (Z.abs z <=? maxTime) eqn:E; inversion Hu; subst. apply Z.leb_le. exact E. }
  destruct i as [| n | s | l]; intros E.
  - inversion E; subst. split; [apply (Hc (Some (h_now H))); assumption | reflexivity].
  - inversion E; subst. split; [apply (Hc (Some n)); assumption | reflexivity].
  - inversion E; subst. split; [apply (Hc (h_parse H s)); assumption | reflexivity].
  - destruct (h !! l) eqn:Hl; [|discriminate].
    inversion E; subst. split; [apply (Hc n); assumption | reflexivity].
Qed.

Lemma alloc_lookup (h : heap) (t : num) : (h ++ [t])%list !! length h = Some t.
Proof. rewrite lookup_app_r by lia. rewrite Nat.sub_diag. reflexivity. Qed.

(** A valid time value is in 8.64e15 < noon of its day only on the last
    day, whose only valid instant is 8.64e15. *)
Lemma noon_in_range (t k : Z) : Z.abs t <= maxTime -> t <> maxTime ->
  (k = Day t \/ -100000 <= k <= 100000) ->
  Z.abs (k * msPerDay + 12 * msPerHour) <= maxTime.
Proof.
  unfold Day, maxTime, msPerDay, msPerHour. intros Ht Hne [->| Hk];
  Z.div_mod_to_equations; lia.
Qed.

Lemma tod_in_range (t k : Z) : Z.abs t <= maxTime ->
  (k = Day t \/ -100000 <= k <= 100000) ->
  Z.abs (k * msPerDay + TimeWithinDay t) <= maxTime.
Proof.
  unfold Day, TimeWithinDay, maxTime, msPerDay. intros Ht [->| Hk];
  Z.div_mod_to_equations; lia.
Qed.

(** * The claims *)

(** C1 (counterexample): the largest valid input, 8.64e15 ms
    (+275760-09-13T00:00:00.000Z), constructed with the default options
    gives an invalid date: noon of that day is out of the time range, so
    its UTC hour is NaN, not 12. *)
Lemma C1_max_instant_not_noon :
  new_Date host_utc (InNumber maxTime) [] = Ok (Some maxTime) [] /\
  XBDateFactory host_utc (InNumber maxTime) None [] = Ok 0%nat [None] /\
  getUTCHours None <> Some 12.
Proof. split; [reflexivity | split; [reflexivity | discriminate]]. Qed.

(** C1 (amended): for an input the primitive parses to a valid time value
    [t], with [normalize] true (the default) the new Date Value has UTC
    time of day 12:00:00.000, unless [t] is the largest time value
    8.64e15; with [normalize] false it keeps the UTC hour, minute, second
    and millisecond of [t]. *)
Theorem XBDateFactory_time_of_day (H : host) (i : input_date) (opt : option bool)
    (h : heap) (t : Z) :
  new_Date H i h = Ok (Some t) h ->
  exists l h', XBDateFactory H i opt h = Ok l h' /\
    (options_normalize opt = true -> t <> maxTime ->
       exists tv, h' !! l = Some tv /\ getUTCHours tv = Some 12 /\
         getUTCMinutes tv = Some 0 /\ getUTCSeconds tv = Some 0 /\
         getUTCMilliseconds tv = Some 0) /\
    (options_normalize opt = false ->
       exists tv, h' !! l = Some tv /\ getUTCHours tv = getUTCHours (Some t) /\
         getUTCMinutes tv = getUTCMinutes (Some t) /\
         getUTCSeconds tv = getUTCSeconds (Some t) /\
         getUTCMilliseconds tv = getUTCMilliseconds (Some t)).
Proof.
  intros Hnd. pose proof (new_Date_clipped H i h h t Hnd) as [Ht _].
  unfold XBDateFactory, bind. rewrite Hnd. unfold alloc.
  eexists _, _. split; [reflexivity|].
  destruct (normalizeToUTC_value t (options_normalize opt)) as (k & Hk & Ev).
  rewrite Ev, time_clip_idem. split.
  - intros Hn Hne. rewrite Hn in *.
    rewrite time_clip_in by (apply (noon_in_range t k); assumption).
    eexists. split; [apply alloc_lookup|].
    assert (Hn12 : 0 <= 12 * msPerHour < msPerDay) by (unfold msPerHour, msPerDay; lia).
    destruct (time_fields_of_day k _ Hn12) as (E1 & E2 & E3 & E4).
    cbn [getUTCHours getUTCMinutes getUTCSeconds getUTCMilliseconds option_map].
    rewrite E1, E2, E3, E4. repeat split; reflexivity.
  - intros Hn. rewrite Hn in *.
    rewrite time_clip_in by (apply (tod_in_range t k); assumption).
    eexists. split; [apply alloc_lookup|].
    assert (Hw : 0 <= TimeWithinDay t < msPerDay)
      by (unfold TimeWithinDay, msPerDay; apply Z.mod_pos_bound; lia).
    destruct (time_fields_of_day k _ Hw) as (E1 & E2 & E3 & E4).
    assert (Et : t = Day t * msPerDay + TimeWithinDay t)
      by (unfold Day, TimeWithinDay, msPerDay; Z.div_mod_to_equations; lia).
    destruct (time_fields_of_day (Day t) _ Hw) as (F1 & F2 & F3 & F4).
    rewrite <- Et in F1, F2, F3, F4.
    cbn [getUTCHours getUTCMinutes getUTCSeconds getUTCMilliseconds option_map].
    rewrite E1, E2, E3, E4, F1, F2, F3, F4. repeat split; reflexivity.
Qed.

(** Witness: 2024-03-15T12:00:00Z read as a number. *)
Lemma XBDateFactory_time_of_day_witness :
  new_Date host_utc (InNumber mar15_2024_noon) [] = Ok (Some mar15_2024_noon) [] /\
  exists l h', XBDateFactory host_utc (InNumber mar15_2024_noon) None [] = Ok l h' /\
    (options_normalize None = true -> mar15_2024_noon <> maxTime ->
       exists tv, h' !! l = Some tv /\ getUTCHours tv = Some 12 /\
         getUTCMinutes tv = Some 0 /\ getUTCSeconds tv = Some 0 /\
         getUTCMilliseconds tv = Some 0) /\
    (options_normalize None = false ->
       exists tv, h' !! l = Some tv /\ getUTCHours tv = getUTCHours (Some mar15_2024_noon) /\
         getUTCMinutes tv = getUTCMinutes (Some mar15_2024_noon) /\
         getUTCSeconds tv = getUTCSeconds (Some mar15_2024_noon) /\
         getUTCMilliseconds tv = getUTCMilliseconds (Some mar15_2024_noon)).
Proof.
  split; [reflexivity|].
  apply (XBDateFactory_time_of_day host_utc (InNumber mar15_2024_noon) None [] mar15_2024_noon).
  reflexivity.
Defined.

Lemma array_some_spec (es : list (loc -> M bool)) (c : loc) (h : heap) :
  (forall e, In e es -> exists b, e c h = Ok b h) ->
  exists b, array_some es c h = Ok b h /\ (b = true <-> exists e, In e es /\ e c h = Ok true h).
Proof.
  induction es as [| e rest IH]; intros Hro.
  - exists false. split; [reflexivity|]. split; [discriminate | intros (e & [] & _)].
  - destruct (Hro e (or_introl eq_refl)) as [b Hb].
    simpl. unfold bind. rewrite Hb. destruct b.
    + exists true. split; [reflexivity|]. split; [intros _; exists e; auto | auto].
    + destruct IH as (b' & Hb' & Hiff); [intros e' He'; apply Hro; right; exact He'|].
      exists b'. split; [exact Hb'|]. rewrite Hiff. split.
      * intros (e' & Hin & He'). exists e'. auto.
      * intros (e' & [<- | Hin] & He'); [congruence | exists e'; auto].
Qed.

(** C2: [matches] with no constraint returns false; otherwise, when the
    resolved evaluators are functions of the candidate (each returns a
    boolean on it and leaves the heap as it is), it returns true iff at
    least one evaluator returns true for the candidate Date Value. *)
Theorem matches_any (H : host) (l : loc) (cs : list constraint) (h h1 : heap) (cand : loc) :
  XBDateFactory H (InDate l) None h = Ok cand h1 ->
  (forall c, In c cs -> exists b, getConstraintEvaluator H c cand h1 = Ok b h1) ->
  xb_matches H l [] h = Ok false h /\
  exists b, xb_matches H l cs h = Ok b (if isEmpty cs then h else h1) /\
    (b = true <-> cs <> [] /\ exists c, In c cs /\ getConstraintEvaluator H c cand h1 = Ok true h1).
Proof.
  intros Hf Hro. split; [reflexivity|].
  destruct cs as [| c0 rest].
  - exists false. split; [reflexivity|]. split; [discriminate | intros [[] _]; reflexivity].
  - change (xb_matches H l (c0 :: rest) h) with
      (bind (XBDateFactory H (InDate l) None)
         (fun date => array_some (map (getConstraintEvaluator H) (c0 :: rest)) date) h).
    unfold bind. rewrite Hf.
    destruct (array_some_spec (map (getConstraintEvaluator H) (c0 :: rest)) cand h1)
      as (b & Hb & Hiff).
    { intros e He. apply in_map_iff in He as (c & <- & Hc). apply Hro. exact Hc. }
    exists b. split; [exact Hb|]. rewrite Hiff. split.
    + intros (e & He & Ht). apply in_map_iff in He as (c & <- & Hc).
      split; [discriminate | exists c; auto].
    + intros [_ (c & Hc & Ht)]. exists (getConstraintEvaluator H c).
      split; [apply in_map; exact Hc | exact Ht].
Qed.

Lemma matches_any_witness :
  XBDateFactory host_utc (InDate 0%nat) None [Some mar15_2024_noon]
    = Ok 1%nat [Some mar15_2024_noon; Some mar15_2024_noon] /\
  (forall c, In c [CDate (InNumber jan31_2024_noon); CDate (InNumber mar15_2024_noon)] ->
     exists b, getConstraintEvaluator host_utc c 1%nat [Some mar15_2024_noon; Some mar15_2024_noon]
               = Ok b [Some mar15_2024_noon; Some mar15_2024_noon]) /\
  (xb_matches host_utc 0%nat [] [Some mar15_2024_noon] = Ok false [Some mar15_2024_noon] /\
  exists b, xb_matches host_utc 0%nat
              [CDate (InNumber jan31_2024_noon); CDate (InNumber mar15_2024_noon)] [Some mar15_2024_noon]
     = Ok b (if isEmpty [CDate (InNumber jan31_2024_noon); CDate (InNumber mar15_2024_noon)]
             then [Some mar15_2024_noon]
             else [Some mar15_2024_noon; Some mar15_2024_noon]) /\
    (b = true <-> [CDate (InNumber jan31_2024_noon); CDate (InNumber mar15_2024_noon)] <> [] /\
       exists c, In c [CDate (InNumber jan31_2024_noon); CDate (InNumber mar15_2024_noon)] /\
         getConstraintEvaluator host_utc c 1%nat [Some mar15_2024_noon; Some mar15_2024_noon]
         = Ok true [Some mar15_2024_noon; Some mar15_2024_noon])).
Proof.
  assert (Hf : XBDateFactory host_utc (InDate 0%nat) None [Some mar15_2024_noon]
    = Ok 1%nat [Some mar15_2024_noon; Some mar15_2024_noon]) by reflexivity.
  assert (Hro : forall c, In c [CDate (InNumber jan31_2024_noon); CDate (InNumber mar15_2024_noon)] ->
     exists b, getConstraintEvaluator host_utc c 1%nat [Some mar15_2024_noon; Some mar15_2024_noon]
               = Ok b [Some mar15_2024_noon; Some mar15_2024_noon]).
  { intros c [<- | [<- | []]]; eexists; vm_compute; reflexivity. }
  split; [exact Hf|]. split; [exact Hro|].
  exact (matches_any host_utc 0%nat
           [CDate (InNumber jan31_2024_noon); CDate (InNumber mar15_2024_noon)] _ _ _ Hf Hro).
Defined.

(** * Lemmas on [String(number)] and [Number(string)] *)

Lemma all_from_spec (f : Z -> bool) (n : nat) (z : Z) :
  all_from f n z = true -> forall k, z <= k < z + Z.of_nat n -> f k = true.
Proof.
  revert z. induction n as [| n IH]; intros z Hall k Hk; simpl in *; [lia|].
  apply andb_prop in Hall as [Hz Hrest].
  destruct (Z.eq_dec k z) as [-> | Hne]; [exact Hz|].
  apply (IH (z + 1)); [exact Hrest | lia].
Qed.

Lemma parse_digits_app (a : Z) (s1 s2 : string) :
  parse_digits a (s1 ++ s2) =
  match parse_digits a s1 with Some b => parse_digits b s2 | None => None end.
Proof.
  revert a. induction s1 as [| c s1 IH]; intros a; simpl; [reflexivity|].
  destruct (is_digit c); [apply IH | reflexivity].
Qed.

Lemma digit_char_ok (n : Z) : 0 <= n <= 9 ->
  is_digit (digit_char n) = true /\ digit_value (digit_char n) = n.
Proof.
  intros Hn.
  assert (Hall : all_from (fun k => is_digit (digit_char k) && (digit_value (digit_char k) =? k))
                   10 0 = true) by reflexivity.
  pose proof (all_from_spec _ _ _ Hall n ltac:(simpl; lia)) as Hk.
  apply andb_prop in Hk as [H1 H2]. apply Z.eqb_eq in H2. split; assumption.
Qed.

Lemma pos_digits_parse (f : nat) (n : Z) (acc : string) :
  0 <= n < 10 ^ Z.of_nat f -> parse_digits 0 (pos_digits f n acc) = parse_digits n acc.
Proof.
  revert n acc. induction f as [| f IH]; intros n acc Hn.
  - simpl in Hn. replace n with 0 by lia. reflexivity.
  - simpl pos_digits. destruct (Z.ltb_spec n 10) as [Hlt | Hge].
    + destruct (digit_char_ok n ltac:(lia)) as [Hd Hv].
      cbn [parse_digits]. rewrite Hd, Hv. reflexivity.
    + rewrite IH.
      * destruct (digit_char_ok (n mod 10) ltac:(pose proof (Z.mod_pos_bound n 10); lia))
          as [Hd Hv].
        cbn [parse_digits]. rewrite Hd, Hv. f_equal. pose proof (Z.div_mod n 10). lia.
      * rewrite Nat2Z.inj_succ, Z.pow_succ_r in Hn by lia.
        split; [apply Z.div_pos; lia | apply Z.div_lt_upper_bound; lia].
Qed.

Lemma digits_fuel_enough (n : Z) : 0 <= n -> n < 10 ^ Z.of_nat (digits_fuel n).
Proof.
  intros Hn. unfold digits_fuel. rewrite Nat2Z.inj_succ, Z2Nat.id by apply Z.log2_nonneg.
  destruct (Z.eq_dec n 0) as [-> | Hne]; [reflexivity|].
  destruct (Z.log2_spec n ltac:(lia)) as [_ Hup].
  eapply Z.lt_le_trans; [exact Hup|].
  apply Z.pow_le_mono_l. lia.
Qed.

Lemma pos_digits_head (f : nat) (n : Z) (acc : string) : 0 <= n -> (0 < f)%nat ->
  exists c r, pos_digits f n acc = String c r /\ is_digit c = true.
Proof.
  revert n acc. induction f as [| f IH]; intros n acc Hn Hf; [lia|].
  simpl. destruct (Z.ltb_spec n 10) as [Hlt | Hge].
  - exists (digit_char n), acc. split; [reflexivity|]. apply digit_char_ok. lia.
  - destruct f as [| f].
    + simpl. exists (digit_char (n mod 10)), acc. split; [reflexivity|].
      apply digit_char_ok. pose proof (Z.mod_pos_bound n 10); lia.
    + apply IH; [apply Z.div_pos; lia | lia].
Qed.

(** [Number(String(n)) = n]. *)
Lemma js_number_to_string (n : Z) : js_number (number_to_string (Some n)) = Some n.
Proof.
  unfold number_to_string. destruct (Z.ltb_spec n 0) as [Hneg | Hpos].
  - destruct (pos_digits_head (digits_fuel (- n)) (- n) EmptyString ltac:(lia)
                ltac:(unfold digits_fuel; lia)) as (c & r & Hcr & _).
    unfold js_number. rewrite Ascii.eqb_refl, Hcr, <- Hcr.
    rewrite pos_digits_parse by (split; [lia | apply digits_fuel_enough; lia]).
    cbn [parse_digits option_map]. f_equal. lia.
  - destruct (pos_digits_head (digits_fuel n) n EmptyString ltac:(lia)
                ltac:(unfold digits_fuel; lia)) as (c & r & Hcr & Hd).
    unfold js_number. rewrite Hcr.
    assert (Hm : Ascii.eqb c "-"%char = false).
    { destruct (Ascii.eqb_spec c "-"%char) as [-> | _]; [discriminate | reflexivity]. }
    rewrite Hm, <- Hcr.
    rewrite pos_digits_parse by (split; [lia | apply digits_fuel_enough; lia]).
    reflexivity.
Qed.

Lemma pad_ok_all : all_from pad_ok 100 0 = true.
Proof. vm_compute. reflexivity. Qed.

Lemma padded_parse (m a : Z) (r : string) : 0 <= m <= 99 ->
  parse_digits a (padded (Some m) 2 ++ r) = parse_digits (a * 100 + m) r.
Proof.
  intros Hm. pose proof (all_from_spec pad_ok 100 0 pad_ok_all m ltac:(simpl; lia)) as Hp.
  unfold pad_ok in Hp.
  destruct (padded (Some m) 2) as [| c1 [| c2 [| c3 s]]]; try discriminate.
  apply andb_prop in Hp as [Hp Hv]. apply andb_prop in Hp as [H1 H2].
  apply Z.eqb_eq in Hv. cbn [parse_digits append]. rewrite H1, H2. f_equal. lia.
Qed.

Lemma append_empty_r (s : string) : (s ++ "")%string = s.
Proof. induction s as [| c s IH]; simpl; [reflexivity | rewrite IH; reflexivity]. Qed.

Lemma js_number_nonneg_app (y : Z) (rest : string) : 0 <= y ->
  js_number (number_to_string (Some y) ++ rest) = parse_digits y rest.
Proof.
  intros Hy. unfold number_to_string.
  destruct (Z.ltb_spec y 0) as [Hlt | _]; [lia|].
  destruct (pos_digits_head (digits_fuel y) y EmptyString Hy ltac:(unfold digits_fuel; lia))
    as (c & r & Hcr & Hd).
  rewrite Hcr. cbn [append js_number].
  assert (Hm : Ascii.eqb c "-"%char = false).
  { destruct (Ascii.eqb_spec c "-"%char) as [-> | _]; [discriminate | reflexivity]. }
  rewrite Hm. change (String c (r ++ rest)) with (String c r ++ rest).
  rewrite <- Hcr, parse_digits_app.
  rewrite pos_digits_parse by (split; [lia | apply digits_fuel_enough; lia]).
  reflexivity.
Qed.

(** The number [is] compares: [YYYY], [YYYYMM] or [YYYYMMDD] (month
    zero-based) for a non-negative UTC year. *)
Definition comparable_value (precision : date_unit) (t : Z) : Z :=
  match precision with
  | unit_year => YearFromTime t
  | unit_month => YearFromTime t * 100 + MonthFromTime t
  | unit_day => YearFromTime t * 10000 + MonthFromTime t * 100 + DateFromTime t
  end.

Lemma comparable_number (t : Z) (p : date_unit) : 0 <= YearFromTime t ->
  js_number (getComparableDate (Some t) p) = Some (comparable_value p t).
Proof.
  intros Hy. pose proof (month_date_range t) as [Hm Hd].
  unfold getComparableDate, getUTCFullYear, getUTCMonth, getUTCDate.
  cbn [option_map].
  destruct p; cbn [COMPARE_TO firstn String.concat append comparable_value].
  - rewrite js_number_to_string. reflexivity.
  - rewrite js_number_nonneg_app by exact Hy.
    rewrite <- (append_empty_r (padded (Some (MonthFromTime t)) 2)).
    rewrite padded_parse by lia. reflexivity.
  - rewrite js_number_nonneg_app by exact Hy.
    rewrite padded_parse by lia.
    rewrite <- (append_empty_r (padded (Some (DateFromTime t)) 2)).
    rewrite padded_parse by lia. cbn [parse_digits]. f_equal. lia.
Qed.

Ltac zbool :=
  repeat match goal with
  | |- context [?x >=? ?y] => rewrite (Z.geb_leb x y)
  | |- context [?x >? ?y] => rewrite (Z.gtb_ltb x y)
  end;
  repeat match goal with
  | |- context [?x <=? ?y] => destruct (Z.leb_spec x y)
  | |- context [?x <? ?y] => destruct (Z.ltb_spec x y)
  | |- context [?x =? ?y] => destruct (Z.eqb_spec x y)
  end; try reflexivity; lia.

Lemma compare_order (op : string) (x y : Z) :
  compare op (Some x) (Some y) = op_on_order op (Z.compare x y).
Proof.
  unfold compare, op_on_order.
  destruct (Z.compare_spec x y) as [E | E | E];
  destruct (String.eqb op ">="); try zbool;
  destruct (String.eqb op ">"); try zbool;
  destruct (String.eqb op "<"); try zbool;
  destruct (String.eqb op "<="); zbool.
Qed.

Ltac cmp_rw :=
  repeat match goal with
  | E : ?a < ?b |- context [?a ?= ?b] => rewrite (proj2 (Z.compare_lt_iff a b) E)
  | E : ?b < ?a |- context [?a ?= ?b] => rewrite (proj2 (Z.compare_gt_iff a b) E)
  | E : ?a = ?b |- context [?a ?= ?b] => rewrite (proj2 (Z.compare_eq_iff a b) E)
  end;
  first [reflexivity
        | (first [apply Z.compare_lt_iff | apply Z.compare_gt_iff | apply Z.compare_eq_iff]; lia)].

Lemma comparable_order (p : date_unit) (t1 t2 : Z) :
  Z.compare (comparable_value p t1) (comparable_value p t2)
  = lex_compare (calendar_key p t1) (calendar_key p t2).
Proof.
  pose proof (month_date_range t1) as [Hm1 Hd1].
  pose proof (month_date_range t2) as [Hm2 Hd2].
  unfold comparable_value, calendar_key.
  set (y1 := YearFromTime t1) in *. set (y2 := YearFromTime t2) in *.
  set (m1 := MonthFromTime t1) in *. set (m2 := MonthFromTime t2) in *.
  set (d1 := DateFromTime t1) in *. set (d2 := DateFromTime t2) in *.
  destruct p; cbn [COMPARE_TO firstn lex_compare].
  - destruct (Z.compare_spec y1 y2); cmp_rw.
  - destruct (Z.compare_spec y1 y2); [destruct (Z.compare_spec m1 m2)|..]; cmp_rw.
  - destruct (Z.compare_spec y1 y2);
      [destruct (Z.compare_spec m1 m2); [destruct (Z.compare_spec d1 d2)|..]|..]; cmp_rw.
Qed.

Lemma xb_is_value (h : heap) (l1 l2 : loc) (t1 t2 : num) (op : string) (p : date_unit) :
  h !! l1 = Some t1 -> h !! l2 = Some t2 ->
  xb_is l1 op l2 p h =
  Ok (compare (getSafeOperator op) (js_number (getComparableDate t1 p))
        (js_number (getComparableDate t2 p))) h.
Proof. intros E1 E2. unfold xb_is, bind, read, ret. rewrite E1, E2. reflexivity. Qed.

(** C3 (counterexample): in the year -1 (2 BCE), January 1 is before June
    10 at day precision, but [is('<', ...)] returns false: the
    comparables are -10001 and -10510. *)
Lemma C3_negative_year_order :
  op_on_order "<" (lex_compare (calendar_key unit_day neg_year_jan1)
                               (calendar_key unit_day neg_year_jun10)) = true /\
  getComparableDate (Some neg_year_jan1) unit_day = "-10001" /\
  getComparableDate (Some neg_year_jun10) unit_day = "-10510" /\
  xb_is 0%nat "<" 1%nat unit_day [Some neg_year_jan1; Some neg_year_jun10]
  = Ok false [Some neg_year_jan1; Some neg_year_jun10].
Proof. vm_compute. repeat split. Qed.

(** [Number] of a comparable whose year is negative: the minus sign
    applies to the month and day digits too. *)
Lemma js_number_neg_app (y : Z) (rest : string) : y < 0 ->
  js_number (number_to_string (Some y) ++ rest) = option_map Z.opp (parse_digits (- y) rest).
Proof.
  intros Hy. unfold number_to_string.
  destruct (Z.ltb_spec y 0) as [_ | Hge]; [|lia].
  destruct (pos_digits_head (digits_fuel (- y)) (- y) EmptyString ltac:(lia)
              ltac:(unfold digits_fuel; lia)) as (c & r & Hcr & _).
  rewrite Hcr. cbn [append js_number]. rewrite Ascii.eqb_refl.
  change (String c (r ++ rest)) with (String c r ++ rest).
  rewrite <- Hcr, parse_digits_app.
  rewrite pos_digits_parse by (split; [lia | apply digits_fuel_enough; lia]).
  reflexivity.
Qed.

(** The number [is] compares, for any valid UTC year: for a negative
    year the month and day digits are subtracted. *)
Lemma comparable_signed (t : Z) (p : date_unit) :
  js_number (getComparableDate (Some t) p) =
  Some (if 0 <=? YearFromTime t then comparable_value p t
        else match p with
             | unit_year => YearFromTime t
             | unit_month => YearFromTime t * 100 - MonthFromTime t
             | unit_day => YearFromTime t * 10000 - (MonthFromTime t * 100 + DateFromTime t)
             end).
Proof.
  destruct (Z.leb_spec 0 (YearFromTime t)) as [Hy | Hy]; [apply comparable_number; exact Hy|].
  pose proof (month_date_range t) as [Hm Hd].
  unfold getComparableDate, getUTCFullYear, getUTCMonth, getUTCDate.
  cbn [option_map].
  destruct p; cbn [COMPARE_TO firstn String.concat append].
  - rewrite js_number_to_string. reflexivity.
  - rewrite js_number_neg_app by exact Hy.
    rewrite <- (append_empty_r (padded (Some (MonthFromTime t)) 2)).
    rewrite padded_parse by lia. cbn [parse_digits option_map]. f_equal. lia.
  - rewrite js_number_neg_app by exact Hy.
    rewrite padded_parse by lia.
    rewrite <- (append_empty_r (padded (Some (DateFromTime t)) 2)).
    rewrite padded_parse by lia. cbn [parse_digits option_map]. f_equal. lia.
Qed.

Ltac cmp_solve :=
  repeat match goal with
  | E : ?a < ?b |- context [?a ?= ?b] => rewrite (proj2 (Z.compare_lt_iff a b) E)
  | E : ?b < ?a |- context [?a ?= ?b] => rewrite (proj2 (Z.compare_gt_iff a b) E)
  | E : ?a = ?b |- context [?a ?= ?b] => rewrite (proj2 (Z.compare_eq_iff a b) E)
  | E : ?b = ?a |- context [?a ?= ?b] => rewrite (proj2 (Z.compare_eq_iff a b) (eq_sym E))
  end;
  first [reflexivity
        | (apply Z.compare_lt_iff; lia)
        | (apply Z.compare_gt_iff; lia)
        | (apply Z.compare_eq_iff; lia)
        | (exfalso; lia)].

(** How the comparables of two valid dates compare: as the calendar
    order, unless both are in the same negative year, where the order
    of month and day is reversed. *)
Lemma comparable_signed_order (p : date_unit) (t1 t2 : Z) :
  let v t := if 0 <=? YearFromTime t then comparable_value p t
             else match p with
                  | unit_year => YearFromTime t
                  | unit_month => YearFromTime t * 100 - MonthFromTime t
                  | unit_day => YearFromTime t * 10000 - (MonthFromTime t * 100 + DateFromTime t)
                  end in
  ((YearFromTime t1 <> YearFromTime t2 \/ 0 <= YearFromTime t1 /\ 0 <= YearFromTime t2) ->
   Z.compare (v t1) (v t2) = lex_compare (calendar_key p t1) (calendar_key p t2)) /\
  (YearFromTime t1 = YearFromTime t2 -> YearFromTime t1 < 0 ->
   Z.compare (v t1) (v t2) = lex_compare (calendar_key p t2) (calendar_key p t1)).
Proof.
  intros v. subst v. cbv beta.
  pose proof (month_date_range t1) as [Hm1 Hd1].
  pose proof (month_date_range t2) as [Hm2 Hd2].
  unfold comparable_value, calendar_key.
  set (y1 := YearFromTime t1) in *. set (y2 := YearFromTime t2) in *.
  set (m1 := MonthFromTime t1) in *. set (m2 := MonthFromTime t2) in *.
  set (d1 := DateFromTime t1) in *. set (d2 := DateFromTime t2) in *.
  destruct (Z.leb_spec 0 y1), (Z.leb_spec 0 y2);
  destruct p; cbn [COMPARE_TO firstn lex_compare]; split; intros;
  destruct (Z.compare_spec y1 y2); destruct (Z.compare_spec m1 m2);
  destruct (Z.compare_spec d1 d2); cmp_solve.
Qed.

(** C3 (amended): for two valid Date Values, [is(op, other, precision)]
    is the truth of the calendar order comparison at that precision ([=]
    and any unknown operator meaning equality) when their UTC years
    differ or are both non-negative; when both are in the same negative
    year, the month and day digits follow the minus sign and the
    comparison is that of [other] against this one (the order within the
    year is reversed).  For any two valid Date Values
    [is('=', other, 'year')] is true iff their UTC years are equal. *)
Theorem is_calendar_order (h : heap) (l1 l2 : loc) (t1 t2 : Z) (op : string) (p : date_unit) :
  h !! l1 = Some (Some t1) -> h !! l2 = Some (Some t2) ->
  ((YearFromTime t1 <> YearFromTime t2 \/ 0 <= YearFromTime t1 /\ 0 <= YearFromTime t2) ->
     xb_is l1 op l2 p h
     = Ok (op_on_order (getSafeOperator op)
             (lex_compare (calendar_key p t1) (calendar_key p t2))) h) /\
  (YearFromTime t1 = YearFromTime t2 -> YearFromTime t1 < 0 ->
     xb_is l1 op l2 p h
     = Ok (op_on_order (getSafeOperator op)
             (lex_compare (calendar_key p t2) (calendar_key p t1))) h) /\
  xb_is l1 "=" l2 unit_year h = Ok (YearFromTime t1 =? YearFromTime t2) h.
Proof.
  intros E1 E2.
  destruct (comparable_signed_order p t1 t2) as [Ha Hb]. cbv beta in Ha, Hb.
  split; [|split].
  - intros Hc. rewrite (xb_is_value h l1 l2 _ _ op p E1 E2).
    rewrite !comparable_signed, compare_order, (Ha Hc). reflexivity.
  - intros Hy Hn. rewrite (xb_is_value h l1 l2 _ _ op p E1 E2).
    rewrite !comparable_signed, compare_order, (Hb Hy Hn). reflexivity.
  - rewrite (xb_is_value h l1 l2 _ _ "=" unit_year E1 E2).
    unfold getComparableDate, getUTCFullYear. cbn [option_map COMPARE_TO firstn String.concat].
    rewrite !js_number_to_string. rewrite compare_order.
    destruct (Z.compare_spec (YearFromTime t1) (YearFromTime t2)); zbool.
Qed.

Lemma is_calendar_order_witness :
  [Some mar15_2024_noon; Some neg_year_jan1] !! 0%nat = Some (Some mar15_2024_noon) /\
  [Some mar15_2024_noon; Some neg_year_jan1] !! 1%nat = Some (Some neg_year_jan1) /\
  (YearFromTime mar15_2024_noon <> YearFromTime neg_year_jan1 \/
   0 <= YearFromTime mar15_2024_noon /\ 0 <= YearFromTime neg_year_jan1) /\
  xb_is 0%nat ">=" 1%nat unit_month [Some mar15_2024_noon; Some neg_year_jan1]
  = Ok (op_on_order (getSafeOperator ">=")
          (lex_compare (calendar_key unit_month mar15_2024_noon)
                       (calendar_key unit_month neg_year_jan1)))
       [Some mar15_2024_noon; Some neg_year_jan1] /\
  [Some neg_year_jan1; Some neg_year_jun10] !! 0%nat = Some (Some neg_year_jan1) /\
  [Some neg_year_jan1; Some neg_year_jun10] !! 1%nat = Some (Some neg_year_jun10) /\
  YearFromTime neg_year_jan1 = YearFromTime neg_year_jun10 /\ YearFromTime neg_year_jan1 < 0 /\
  xb_is 0%nat "<" 1%nat unit_day [Some neg_year_jan1; Some neg_year_jun10]
  = Ok (op_on_order (getSafeOperator "<")
          (lex_compare (calendar_key unit_day neg_year_jun10)
                       (calendar_key unit_day neg_year_jan1)))
       [Some neg_year_jan1; Some neg_year_jun10] /\
  xb_is 0%nat "=" 1%nat unit_year [Some mar15_2024_noon; Some neg_year_jan1]
  = Ok (YearFromTime mar15_2024_noon =? YearFromTime neg_year_jan1)
       [Some mar15_2024_noon; Some neg_year_jan1].
Proof.
  assert (E1 : [Some mar15_2024_noon; Some neg_year_jan1] !! 0%nat = Some (Some mar15_2024_noon))
    by reflexivity.
  assert (E2 : [Some mar15_2024_noon; Some neg_year_jan1] !! 1%nat = Some (Some neg_year_jan1))
    by reflexivity.
  assert (F1 : [Some neg_year_jan1; Some neg_year_jun10] !! 0%nat = Some (Some neg_year_jan1))
    by reflexivity.
  assert (F2 : [Some neg_year_jan1; Some neg_year_jun10] !! 1%nat = Some (Some neg_year_jun10))
    by reflexivity.
  assert (Ya : YearFromTime mar15_2024_noon = 2024) by (vm_compute; reflexivity).
  assert (Yb : YearFromTime neg_year_jan1 = -1) by (vm_compute; reflexivity).
  assert (Yc : YearFromTime neg_year_jun10 = -1) by (vm_compute; reflexivity).
  assert (Hc : YearFromTime mar15_2024_noon <> YearFromTime neg_year_jan1 \/
               0 <= YearFromTime mar15_2024_noon /\ 0 <= YearFromTime neg_year_jan1) by lia.
  assert (Hy : YearFromTime neg_year_jan1 = YearFromTime neg_year_jun10) by lia.
  assert (Hn : YearFromTime neg_year_jan1 < 0) by lia.
  destruct (is_calendar_order _ 0%nat 1%nat mar15_2024_noon neg_year_jan1 ">=" unit_month E1 E2)
    as (A1 & _ & A3).
  destruct (is_calendar_order _ 0%nat 1%nat neg_year_jan1 neg_year_jun10 "<" unit_day F1 F2)
    as (_ & B2 & _).
  split; [exact E1 | split; [exact E2 | split; [exact Hc | split; [exact (A1 Hc) |]]]].
  split; [exact F1 | split; [exact F2 | split; [exact Hy | split; [exact Hn |]]]].
  split; [exact (B2 Hy Hn) | exact A3].
Defined.

(** C4 (failing input): on a host in Pacific/Tongatapu (UTC+13), for the
    Date Value of 2024-03-15, [add({day: 1})] then [subtract({day: 1})]
    gives 2024-03-13: the helper [add] rebuilds the date with the
    local-time constructor from UTC fields. *)
Lemma C4_tonga_round_trip :
  XBDateFactory host_tonga (InNumber mar15_2024_noon) None [] = Ok 0%nat [Some mar15_2024_noon] /\
  xb_add host_tonga 0%nat (Some [("day", 1)]) [Some mar15_2024_noon]
  = Ok (VXB 2%nat) [Some mar15_2024_noon; Some 1710543600000; Some mar15_2024_noon] /\
  xb_subtract host_tonga 2%nat (Some [("day", 1)])
    [Some mar15_2024_noon; Some 1710543600000; Some mar15_2024_noon]
  = Ok (VXB 4%nat) [Some mar15_2024_noon; Some 1710543600000; Some mar15_2024_noon;
                    Some 1710370800000; Some 1710331200000] /\
  getDate 4%nat [Some mar15_2024_noon; Some 1710543600000; Some mar15_2024_noon;
                 Some 1710370800000; Some 1710331200000]
  = Ok (Some 13) [Some mar15_2024_noon; Some 1710543600000; Some mar15_2024_noon;
                  Some 1710370800000; Some 1710331200000] /\
  xb_is 0%nat "=" 4%nat unit_day [Some mar15_2024_noon; Some 1710543600000; Some mar15_2024_noon;
                                  Some 1710370800000; Some 1710331200000]
  = Ok false [Some mar15_2024_noon; Some 1710543600000; Some mar15_2024_noon;
              Some 1710370800000; Some 1710331200000].
Proof. vm_compute. repeat split. Qed.

(** C5 (failing input): [add] with two or more keys throws, whatever the
    host and the receiver: the second step of the fold passes the Date
    Value returned by the first to the helper, which calls
    [date.getUTCFullYear()] on it. *)
Theorem add_two_keys_throws (H : host) (l : loc) (h : heap) (t : num)
    (k1 k2 : string) (v1 v2 : Z) (rest : list (string * Z)) :
  h !! l = Some t ->
  xb_add H l (Some ((k1, v1) :: (k2, v2) :: rest)) h
  = Throw "TypeError: date.getUTCFullYear is not a function" /\
  xb_subtract H l (Some ((k1, v1) :: (k2, v2) :: rest)) h
  = Throw "TypeError: date.getUTCFullYear is not a function".
Proof.
  intros Hl.
  unfold xb_add, xb_subtract. cbn [reduce_keys].
  unfold add, bind, read, alloc, ret. rewrite Hl.
  unfold XBDateFactory, new_Date, bind, read, ret, alloc.
  split; rewrite alloc_lookup; reflexivity.
Qed.

Lemma add_two_keys_throws_witness :
  [Some mar15_2024_noon] !! 0%nat = Some (Some mar15_2024_noon) /\
  xb_add host_utc 0%nat (Some [("year", 1); ("month", 1)]) [Some mar15_2024_noon]
  = Throw "TypeError: date.getUTCFullYear is not a function" /\
  xb_subtract host_utc 0%nat (Some [("year", 1); ("month", 1)]) [Some mar15_2024_noon]
  = Throw "TypeError: date.getUTCFullYear is not a function".
Proof.
  split; [reflexivity|].
  apply (add_two_keys_throws host_utc 0%nat [Some mar15_2024_noon] (Some mar15_2024_noon)
           "year" "month" 1 1 []).
  reflexivity.
Defined.

(** C6 (failing input): on 2024-01-31, [set({month: 1, day: 15})] gives
    2024-03-15, not 2024-02-15: [setUTCMonth(1)] on the 31st first rolls
    into March, then [setUTCDate(15)] sets the day in March.  The result
    is the receiver. *)
Lemma C6_set_month_end :
  xb_set 0%nat (mk_set_values None (Some 1) (Some 15)) [Some jan31_2024_noon]
  = Ok (VXB 0%nat) [Some mar15_2024_noon] /\
  Date_UTC (Some 2024) (Some 1) (Some 15) (Some 12) (Some 0) (Some 0) (Some 0)
  = Some 1707998400000 /\
  mar15_2024_noon <> 1707998400000.
Proof. vm_compute. split; [reflexivity | split; [reflexivity | discriminate]]. Qed.

Lemma getSafeOperator_default (op : string) :
  ~ In op [">="; ">"; "<"; "<="] -> getSafeOperator op = "===".
Proof.
  intros Hn. unfold getSafeOperator.
  destruct (String.eqb_spec op "=") as [-> | Hne]; [reflexivity|].
  rewrite orb_false_r.
  assert (E : existsb (String.eqb op) [">="; ">"; "="; "<"; "<="] = false).
  { apply not_true_iff_false. intros Hx. apply existsb_exists in Hx as (x & Hx & Hq).
    apply String.eqb_eq in Hq. subst x.
    destruct Hx as [E | [E | [E | [E | [E | []]]]]]; subst op;
      [apply Hn; simpl; tauto | apply Hn; simpl; tauto | congruence
      | apply Hn; simpl; tauto | apply Hn; simpl; tauto]. }
  rewrite E. reflexivity.
Qed.

(** C7: for every operator other than [>=], [>], [<] and [<=] (so also for
    [=] and for ['bogus']), [is] behaves as [is('=', ...)], which compares
    the two comparable numbers with strict equality. *)
Theorem is_unknown_operator_equality (op : string) (l1 l2 : loc) (p : date_unit) (h : heap) :
  ~ In op [">="; ">"; "<"; "<="] ->
  xb_is l1 op l2 p h = xb_is l1 "=" l2 p h /\
  xb_is l1 "=" l2 p h =
  (t1 <- read l1 ;; t2 <- read l2 ;;
   ret (num_strict_eq (js_number (getComparableDate t1 p))
                      (js_number (getComparableDate t2 p)))) h.
Proof.
  intros Hn. unfold xb_is.
  rewrite (getSafeOperator_default op Hn).
  rewrite (getSafeOperator_default "=") by (simpl; intuition discriminate).
  split; [reflexivity|].
  assert (Hc : forall a b, compare "===" a b = num_strict_eq a b)
    by (intros [a|] [b|]; reflexivity).
  unfold bind. destruct (read l1 h) as [t1 h1 |]; [|reflexivity].
  destruct (read l2 h1) as [t2 h2 |]; [|reflexivity].
  unfold ret. rewrite Hc. reflexivity.
Qed.

Lemma is_unknown_operator_equality_witness :
  ~ In "bogus" [">="; ">"; "<"; "<="] /\
  xb_is 0%nat "bogus" 1%nat unit_day [Some mar15_2024_noon; Some jan31_2024_noon]
  = xb_is 0%nat "=" 1%nat unit_day [Some mar15_2024_noon; Some jan31_2024_noon] /\
  xb_is 0%nat "=" 1%nat unit_day [Some mar15_2024_noon; Some jan31_2024_noon] =
  (t1 <- read 0%nat ;; t2 <- read 1%nat ;;
   ret (num_strict_eq (js_number (getComparableDate t1 unit_day))
                      (js_number (getComparableDate t2 unit_day))))
    [Some mar15_2024_noon; Some jan31_2024_noon].
Proof.
  assert (Hn : ~ In "bogus" [">="; ">"; "<"; "<="]) by (simpl; intuition discriminate).
  split; [exact Hn|].
  exact (is_unknown_operator_equality "bogus" 0%nat 1%nat unit_day _ Hn).
Defined.

(** C8: an input the primitive cannot parse (its time value is NaN) does
    not make construction fail: the new Date Value holds the invalid date,
    and every accessor returns NaN. *)
Theorem invalid_input_propagates (H : host) (i : input_date) (opt : option bool) (h : heap) :
  new_Date H i h = Ok None h ->
  exists l h', XBDateFactory H i opt h = Ok l h' /\ h' !! l = Some None /\
    getYear l h' = Ok None h' /\ getMonth l h' = Ok None h' /\
    getDate l h' = Ok None h' /\ getTime l h' = Ok None h' /\
    getWeekday l h' = Ok None h' /\ getHours l h' = Ok None h' /\
    getMinutes l h' = Ok None h' /\ getSeconds l h' = Ok None h'.
Proof.
  intros Hnd. unfold XBDateFactory, bind. rewrite Hnd. unfold alloc.
  eexists _, _. split; [reflexivity|].
  assert (Hn : time_clip (normalizeToUTC None (options_normalize opt)) = None)
    by (destruct (options_normalize opt); reflexivity).
  rewrite Hn.
  unfold getYear, getMonth, getDate, getTime, getWeekday, getHours, getMinutes, getSeconds,
    getter, bind, read, ret.
  split; [apply alloc_lookup|].
  repeat split; rewrite alloc_lookup; reflexivity.
Qed.

Lemma invalid_input_propagates_witness :
  new_Date host_utc (InString "not a date") [] = Ok None [] /\
  exists l h', XBDateFactory host_utc (InString "not a date") None [] = Ok l h' /\
    h' !! l = Some None /\
    getYear l h' = Ok None h' /\ getMonth l h' = Ok None h' /\
    getDate l h' = Ok None h' /\ getTime l h' = Ok None h' /\
    getWeekday l h' = Ok None h' /\ getHours l h' = Ok None h' /\
    getMinutes l h' = Ok None h' /\ getSeconds l h' = Ok None h'.
Proof.
  split; [reflexivity|].
  apply (invalid_input_propagates host_utc (InString "not a date") None []).
  reflexivity.
Defined.

(** C9 (failing input): [add] and [subtract] with an empty or absent
    mapping return the receiver's own [Date] object [utcDate], not a new
    Date Value (and with two or more keys they throw, see C5). *)
Theorem add_empty_returns_receiver_date (H : host) (l : loc) (h : heap) :
  xb_add H l None h = Ok (VDate l) h /\ xb_add H l (Some []) h = Ok (VDate l) h /\
  xb_subtract H l None h = Ok (VDate l) h /\ xb_subtract H l (Some []) h = Ok (VDate l) h.
Proof. repeat split. Qed.

(** [evaluators.some] with evaluators that each write only into the date
    they receive writes only into that date. *)
Lemma array_some_frames (es : list (loc -> M bool)) (c : loc) (h : heap) (b : bool) (h' : heap) :
  Forall frames es -> array_some es c h = Ok b h' ->
  (length h <= length h')%nat /\
  forall l', l' <> c -> (l' < length h)%nat -> h' !! l' = h !! l'.
Proof.
  revert h. induction es as [| e rest IH]; intros h Hf Hs.
  - simpl in Hs. inversion Hs; subst. split; [lia | reflexivity].
  - inversion Hf as [| ? ? He Hrest]; subst. simpl in Hs. unfold bind in Hs.
    destruct (e c h) as [b0 h0 |] eqn:E; [|discriminate].
    destruct (He c h b0 h0 E) as [Hlen Hfr].
    destruct b0.
    + inversion Hs; subst. split; [exact Hlen | exact Hfr].
    + destruct (IH h0 Hrest Hs) as [Hlen' Hfr']. split; [lia|].
      intros l' Hne Hlt. rewrite Hfr' by lia. apply Hfr; assumption.
Qed.

(** The candidate built from a valid time value other than 8.64e15 with
    [normalize] true holds UTC noon. *)
Lemma normalized_noon (t : Z) : Z.abs t <= maxTime -> t <> maxTime ->
  exists cv, time_clip (normalizeToUTC (Some t) true) = Some cv /\
    getUTCHours (Some cv) = Some 12 /\ getUTCMinutes (Some cv) = Some 0 /\
    getUTCSeconds (Some cv) = Some 0 /\ getUTCMilliseconds (Some cv) = Some 0.
Proof.
  intros Ht Hne.
  destruct (normalizeToUTC_value t true) as (k & Hk & Ev).
  rewrite Ev, time_clip_idem.
  rewrite time_clip_in by (apply (noon_in_range t k); assumption).
  eexists. split; [reflexivity|].
  assert (Hn12 : 0 <= 12 * msPerHour < msPerDay) by (unfold msPerHour, msPerDay; lia).
  destruct (time_fields_of_day k _ Hn12) as (E1 & E2 & E3 & E4).
  cbn [getUTCHours getUTCMinutes getUTCSeconds getUTCMilliseconds option_map].
  rewrite E1, E2, E3, E4. repeat split; reflexivity.
Qed.

(** C10: counterexample.  A receiver built from 8.64e15 with [normalize]
    false holds 8.64e15 (00:00 UTC); the candidate [matches] builds from it
    is the invalid date, so the predicate [d => d.getHours() === 12] sees
    NaN and [matches] returns false. *)
Lemma C10_max_instant_candidate_not_noon :
  XBDateFactory host_utc (InNumber maxTime) (Some false) [] = Ok 0%nat [Some maxTime] /\
  getUTCHours (Some maxTime) = Some 0 /\
  xb_matches host_utc 0%nat [CPred hours_is_noon] [Some maxTime]
    = Ok false [Some maxTime; None].
Proof. split; [reflexivity | split; reflexivity]. Qed.

(** C10 (amended): [matches] never passes the receiver to the evaluators:
    it allocates a fresh Date Value from the receiver's instant with the
    default options, and a non-empty list of constraints is evaluated on
    it.  When the receiver holds a valid time value other than 8.64e15,
    that candidate has UTC time of day 12:00:00.000 (whatever options
    built the receiver); and when every evaluator writes only into the
    Date Value it receives, the receiver is unchanged by the call. *)
Theorem matches_fresh_candidate (H : host) (l : loc) (h : heap) (tv : num) :
  h !! l = Some tv ->
  exists c h1, XBDateFactory H (InDate l) None h = Ok c h1 /\ c = length h /\ c <> l /\
    h1 !! l = Some tv /\
    (forall cs, cs <> [] ->
       xb_matches H l cs h = array_some (map (getConstraintEvaluator H) cs) c h1) /\
    (forall t, tv = Some t -> Z.abs t <= maxTime -> t <> maxTime ->
       exists cv, h1 !! c = Some cv /\ getUTCHours cv = Some 12 /\
         getUTCMinutes cv = Some 0 /\ getUTCSeconds cv = Some 0 /\
         getUTCMilliseconds cv = Some 0) /\
    (forall cs b h', Forall (fun cn => frames (getConstraintEvaluator H cn)) cs ->
       xb_matches H l cs h = Ok b h' -> h' !! l = Some tv).
Proof.
  intros Hl. pose proof (lookup_lt_Some _ _ _ Hl) as Hlt.
  assert (HX : XBDateFactory H (InDate l) None h =
               Ok (length h) (h ++ [time_clip (normalizeToUTC (time_clip tv) true)])%list).
  { unfold XBDateFactory, new_Date, bind, read, ret, alloc. rewrite Hl. reflexivity. }
  assert (Hl1 : (h ++ [time_clip (normalizeToUTC (time_clip tv) true)])%list !! l = Some tv)
    by (rewrite lookup_app_l by lia; exact Hl).
  eexists _, _. split; [exact HX|]. split; [reflexivity|]. split; [lia|].
  split; [exact Hl1|].
  assert (Hm : forall cs, cs <> [] ->
     xb_matches H l cs h = array_some (map (getConstraintEvaluator H) cs) (length h)
       (h ++ [time_clip (normalizeToUTC (time_clip tv) true)])%list).
  { intros cs Hne. destruct cs as [| c0 rest]; [congruence|].
    unfold xb_matches. cbn [isEmpty]. unfold bind at 1. rewrite HX. reflexivity. }
  split; [exact Hm|]. split.
  - intros t -> Ht Hne. rewrite time_clip_in by exact Ht.
    destruct (normalized_noon t Ht Hne) as (cv & Ecv & F).
    exists (Some cv). rewrite Ecv. split; [apply alloc_lookup | exact F].
  - intros cs b h' Hf Hmt. destruct cs as [| c0 rest].
    + unfold xb_matches in Hmt. cbn in Hmt. inversion Hmt; subst. exact Hl.
    + rewrite Hm in Hmt by discriminate.
      assert (Hfm : Forall frames (map (getConstraintEvaluator H) (c0 :: rest)))
        by (apply Forall_map; exact Hf).
      destruct (array_some_frames _ _ _ _ _ Hfm Hmt) as [_ Hfr].
      rewrite Hfr by (try rewrite length_app; simpl; lia). exact Hl1.
Qed.

(** Witness: a receiver built with [normalize] false at 2024-03-15T09:30Z,
    matched against [d => d.getHours() === 12]. *)
Lemma matches_fresh_candidate_witness :
  [Some (mar15_2024_noon - 150 * msPerMinute)] !! 0%nat = Some (Some (mar15_2024_noon - 150 * msPerMinute)) /\
  exists c h1, XBDateFactory host_utc (InDate 0%nat) None [Some (mar15_2024_noon - 150 * msPerMinute)] = Ok c h1 /\
    c = length [Some (mar15_2024_noon - 150 * msPerMinute)] /\ c <> 0%nat /\
    h1 !! 0%nat = Some (Some (mar15_2024_noon - 150 * msPerMinute)) /\
    (forall cs, cs <> [] ->
       xb_matches host_utc 0%nat cs [Some (mar15_2024_noon - 150 * msPerMinute)]
       = array_some (map (getConstraintEvaluator host_utc) cs) c h1) /\
    (forall t, Some (mar15_2024_noon - 150 * msPerMinute) = Some t -> Z.abs t <= maxTime -> t <> maxTime ->
       exists cv, h1 !! c = Some cv /\ getUTCHours cv = Some 12 /\
         getUTCMinutes cv = Some 0 /\ getUTCSeconds cv = Some 0 /\
         getUTCMilliseconds cv = Some 0) /\
    (forall cs b h', Forall (fun cn => frames (getConstraintEvaluator host_utc cn)) cs ->
       xb_matches host_utc 0%nat cs [Some (mar15_2024_noon - 150 * msPerMinute)] = Ok b h' ->
       h' !! 0%nat = Some (Some (mar15_2024_noon - 150 * msPerMinute))).
Proof.
  split; [reflexivity|].
  apply (matches_fresh_candidate host_utc 0%nat _ _). reflexivity.
Defined.

(** * Further properties of the code *)

(** ** Calendar: the other direction of the round trip *)

Lemma yoe_of_doe (yoe doy : Z) : 0 <= yoe <= 399 -> 0 <= doy <= 364 ->
  let doe := yoe * 365 + yoe / 4 - yoe / 100 + doy in
  (doe - doe / 1460 + doe / 36524 - doe / 146096) / 365 = yoe.
Proof. intros H1 H2 doe. subst doe. Z.div_mod_to_equations. lia. Qed.

Lemma mp_of_doy (mp d : Z) : 0 <= mp <= 11 -> 1 <= d <= 28 ->
  (5 * ((153 * mp + 2) / 5 + d - 1) + 2) / 153 = mp.
Proof. intros. Z.div_mod_to_equations. lia. Qed.

(** A day 1..28 of any month is read back from its day number. *)
Lemma civil_from_days_of_civil (y m d : Z) : 1 <= m <= 12 -> 1 <= d <= 28 ->
  civil_from_days (days_from_civil y m d) = (y, m, d).
Proof.
  intros Hm Hd. unfold days_from_civil.
  set (y' := if m <=? 2 then y - 1 else y).
  set (mp := if 2 <? m then m - 3 else m + 9).
  assert (Hmp : 0 <= mp <= 11) by (subst mp; destruct (Z.ltb_spec 2 m); lia).
  set (era := y' / 400). set (yoe := y' - era * 400).
  assert (Hyoe : 0 <= yoe <= 399) by (subst yoe era; Z.div_mod_to_equations; lia).
  set (doy := (153 * mp + 2) / 5 + d - 1).
  assert (Hdoy : 0 <= doy <= 364) by (subst doy; Z.div_mod_to_equations; lia).
  set (doe := yoe * 365 + yoe / 4 - yoe / 100 + doy).
  assert (Hdoe : 0 <= doe <= 146096) by (subst doe; Z.div_mod_to_equations; lia).
  unfold civil_from_days.
  replace (era * 146097 + doe - 719468 + 719468) with (doe + era * 146097) by lia.
  rewrite Z.div_add by lia. rewrite (Z.div_small doe) by lia.
  replace (doe + era * 146097 - (0 + era) * 146097) with doe by lia.
  assert (Ey : (doe - doe / 1460 + doe / 36524 - doe / 146096) / 365 = yoe)
    by (apply yoe_of_doe; lia).
  rewrite Ey.
  replace (doe - (365 * yoe + yoe / 4 - yoe / 100)) with doy by (subst doe; lia).
  assert (Em : (5 * doy + 2) / 153 = mp) by (apply mp_of_doy; lia).
  rewrite Em.
  replace (doy - (153 * mp + 2) / 5 + 1) with d by (subst doy; lia).
  subst mp y' yoe era.
  destruct (Z.ltb_spec 2 m) as [H2 | H2].
  - replace (m - 3 <? 10) with true by (symmetry; apply Z.ltb_lt; lia).
    replace (m - 3 + 3) with m by lia.
    replace (m <=? 2) with false by (symmetry; apply Z.leb_gt; lia).
    f_equal. f_equal. lia.
  - replace (m + 9 <? 10) with false by (symmetry; apply Z.ltb_ge; lia).
    replace (m + 9 - 9) with m by lia.
    replace (m <=? 2) with true by (symmetry; apply Z.leb_le; lia).
    f_equal. f_equal. lia.
Qed.

Lemma Day_of_day (k tod : Z) : 0 <= tod < msPerDay ->
  Day (k * msPerDay + tod) = k /\ TimeWithinDay (k * msPerDay + tod) = tod.
Proof.
  intros Ht. unfold Day, TimeWithinDay in *. split.
  - rewrite Z.add_comm, Z.div_add by (unfold msPerDay; lia).
    rewrite Z.div_small by lia. lia.
  - rewrite Z.add_comm, Z.mod_add by (unfold msPerDay; lia). apply Z.mod_small. lia.
Qed.

Lemma day_split (t : Z) : Day t * msPerDay + TimeWithinDay t = t /\ 0 <= TimeWithinDay t < msPerDay.
Proof. unfold Day, TimeWithinDay, msPerDay. Z.div_mod_to_equations. lia. Qed.

(** The UTC fields of an instant of a day 1..28. *)
Lemma fields_of_civil (y m d tod : Z) : 1 <= m <= 12 -> 1 <= d <= 28 -> 0 <= tod < msPerDay ->
  YearFromTime (days_from_civil y m d * msPerDay + tod) = y /\
  MonthFromTime (days_from_civil y m d * msPerDay + tod) = m - 1 /\
  DateFromTime (days_from_civil y m d * msPerDay + tod) = d.
Proof.
  intros Hm Hd Ht. unfold YearFromTime, MonthFromTime, DateFromTime.
  rewrite (proj1 (Day_of_day _ _ Ht)), civil_from_days_of_civil by assumption.
  simpl. repeat split; lia.
Qed.

(** The UTC calendar fields depend on the day only. *)
Lemma fields_of_same_day (t k tod : Z) : 0 <= tod < msPerDay -> k = Day t ->
  YearFromTime (k * msPerDay + tod) = YearFromTime t /\
  MonthFromTime (k * msPerDay + tod) = MonthFromTime t /\
  DateFromTime (k * msPerDay + tod) = DateFromTime t.
Proof.
  intros Ht ->. unfold YearFromTime, MonthFromTime, DateFromTime.
  rewrite (proj1 (Day_of_day _ _ Ht)). repeat split.
Qed.

(** A day within 100000 days of the epoch is in a year after 99. *)
Lemma year_of_near_day (k tod : Z) : -100000 <= k -> 0 <= tod < msPerDay ->
  100 <= YearFromTime (k * msPerDay + tod).
Proof.
  intros Hk Ht. unfold YearFromTime. rewrite (proj1 (Day_of_day _ _ Ht)).
  pose proof (days_from_civil_of_days k) as Hc.
  destruct (civil_from_days k) as [[y m] d]; simpl.
  destruct Hc as (Hm & Hd & E).
  destruct (Z.le_gt_cases 100 y) as [Hy | Hy]; [exact Hy|].
  exfalso. unfold days_from_civil in E.
  destruct (m <=? 2), (2 <? m); Z.div_mod_to_equations; lia.
Qed.

Definition two_digit_year (y : Z) : Prop := 0 <= y <= 99.

(** [normalizeToUTC] on a valid instant whose year is not 0..99: the day
    of the instant, at noon or at its own time of day. *)
Lemma normalizeToUTC_plain (t : Z) (norm : bool) : ~ two_digit_year (YearFromTime t) ->
  normalizeToUTC (Some t) norm
  = time_clip (Some (Day t * msPerDay + (if norm then 12 * msPerHour else TimeWithinDay t))).
Proof.
  intros Hy. unfold normalizeToUTC, Date_UTC, getUTCFullYear, getUTCMonth, getUTCDate.
  cbn [option_map].
  assert (Htime : MakeTime (if norm then Some 12 else getUTCHours (Some t))
                    (if norm then Some 0 else getUTCMinutes (Some t))
                    (if norm then Some 0 else getUTCSeconds (Some t))
                    (if norm then Some 0 else getUTCMilliseconds (Some t))
                  = Some (if norm then 12 * msPerHour else TimeWithinDay t)).
  { destruct norm; [reflexivity | apply MakeTime_fields]. }
  rewrite Htime. unfold full_year.
  replace ((0 <=? YearFromTime t) && (YearFromTime t <=? 99)) with false.
  - rewrite MakeDay_fields. reflexivity.
  - symmetry. apply not_true_iff_false. intros E.
    apply andb_prop in E as [E1 E2]. apply Z.leb_le in E1, E2. apply Hy. split; assumption.
Qed.

(** ... and on an instant of a year 0..99: the same month and day of the
    year [1900 + y]. *)
Lemma normalizeToUTC_two_digit (t : Z) (norm : bool) : two_digit_year (YearFromTime t) ->
  normalizeToUTC (Some t) norm
  = time_clip (Some (days_from_civil (1900 + YearFromTime t) (MonthFromTime t + 1) (DateFromTime t)
                       * msPerDay + (if norm then 12 * msPerHour else TimeWithinDay t))).
Proof.
  intros Hy. pose proof (month_date_range t) as Hr.
  unfold normalizeToUTC, Date_UTC, getUTCFullYear, getUTCMonth, getUTCDate.
  cbn [option_map].
  assert (Htime : MakeTime (if norm then Some 12 else getUTCHours (Some t))
                    (if norm then Some 0 else getUTCMinutes (Some t))
                    (if norm then Some 0 else getUTCSeconds (Some t))
                    (if norm then Some 0 else getUTCMilliseconds (Some t))
                  = Some (if norm then 12 * msPerHour else TimeWithinDay t)).
  { destruct norm; [reflexivity | apply MakeTime_fields]. }
  rewrite Htime. unfold full_year, two_digit_year in *.
  replace ((0 <=? YearFromTime t) && (YearFromTime t <=? 99)) with true
    by (symmetry; apply andb_true_intro; split; apply Z.leb_le; lia).
  cbv beta iota zeta delta [MakeDay]. rewrite Z.div_small by lia. rewrite Z.mod_small by lia.
  rewrite (days_from_civil_date _ _ (DateFromTime t)).
  replace (1900 + YearFromTime t + 0) with (1900 + YearFromTime t) by lia.
  reflexivity.
Qed.

Lemma norm_tod_range (norm : bool) (t : Z) :
  0 <= (if norm then 12 * msPerHour else TimeWithinDay t) < msPerDay.
Proof.
  destruct norm; [unfold msPerHour, msPerDay; lia | apply day_split].
Qed.

Lemma time_clip_some (x z : Z) : time_clip (Some x) = Some z -> x = z /\ Z.abs z <= maxTime.
Proof.
  simpl. destruct (Z.leb_spec (Z.abs x) maxTime) as [Hx | Hx]; intros E; inversion E; subst.
  split; [reflexivity | exact Hx].
Qed.

(** What [normalizeToUTC] stores: never a year 0..99, and noon when
    normalizing. *)
Lemma normalized_shape (t z : Z) (norm : bool) :
  time_clip (normalizeToUTC (Some t) norm) = Some z ->
  ~ two_digit_year (YearFromTime z) /\ Z.abs z <= maxTime /\
  (norm = true -> TimeWithinDay z = 12 * msPerHour).
Proof.
  intros E. pose proof (norm_tod_range norm t) as Htod.
  destruct (Z.le_gt_cases 0 (YearFromTime t)) as [Hy0 | Hy0];
    [destruct (Z.le_gt_cases (YearFromTime t) 99) as [Hy1 | Hy1]|].
  - rewrite normalizeToUTC_two_digit, time_clip_idem in E by (unfold two_digit_year; lia).
    apply time_clip_some in E as [<- Hz]. pose proof (month_date_range t) as Hr.
    pose proof (days_from_civil_1900s (1900 + YearFromTime t) (MonthFromTime t + 1)
                  (DateFromTime t) ltac:(lia) ltac:(lia) ltac:(lia)) as Hk.
    split; [|split; [exact Hz|]].
    + pose proof (year_of_near_day
        (days_from_civil (1900 + YearFromTime t) (MonthFromTime t + 1) (DateFromTime t))
        _ ltac:(lia) Htod). unfold two_digit_year. lia.
    + intros ->. apply (Day_of_day _ _ Htod).
  - rewrite normalizeToUTC_plain, time_clip_idem in E by (unfold two_digit_year; lia).
    apply time_clip_some in E as [<- Hz].
    destruct (fields_of_same_day t (Day t) _ Htod eq_refl) as (Ey & _).
    split; [|split; [exact Hz|]].
    + rewrite Ey. unfold two_digit_year. lia.
    + intros ->. apply (Day_of_day _ _ Htod).
  - rewrite normalizeToUTC_plain, time_clip_idem in E by (unfold two_digit_year; lia).
    apply time_clip_some in E as [<- Hz].
    destruct (fields_of_same_day t (Day t) _ Htod eq_refl) as (Ey & _).
    split; [|split; [exact Hz|]].
    + rewrite Ey. unfold two_digit_year. lia.
    + intros ->. apply (Day_of_day _ _ Htod).
Qed.

Lemma new_Date_heap (H : host) (i : input_date) (h h' : heap) (t : num) :
  new_Date H i h = Ok t h' -> h' = h.
Proof.
  unfold new_Date, bind, ret, read. destruct i as [| | | l]; intros E; try (inversion E; reflexivity).
  destruct (h !! l); inversion E; reflexivity.
Qed.

(** ** The factory *)

(** X1: with [normalize] false, an instant the primitive reads as valid,
    in a year other than 0..99, is stored exactly. *)
Theorem factory_unnormalized_exact (H : host) (i : input_date) (h : heap) (t : Z) :
  new_Date H i h = Ok (Some t) h -> ~ two_digit_year (YearFromTime t) ->
  XBDateFactory H i (Some false) h = Ok (length h) (h ++ [Some t])%list.
Proof.
  intros E Hy. pose proof (new_Date_clipped H i h h t E) as [Ht _].
  unfold XBDateFactory, bind. rewrite E. cbn [options_normalize].
  rewrite normalizeToUTC_plain by exact Hy. rewrite time_clip_idem.
  rewrite (proj1 (day_split t)), time_clip_in by exact Ht. reflexivity.
Qed.

Lemma factory_unnormalized_exact_witness :
  new_Date host_utc (InNumber (mar15_2024_noon - 150 * msPerMinute)) []
    = Ok (Some (mar15_2024_noon - 150 * msPerMinute)) [] /\
  ~ two_digit_year (YearFromTime (mar15_2024_noon - 150 * msPerMinute)) /\
  XBDateFactory host_utc (InNumber (mar15_2024_noon - 150 * msPerMinute)) (Some false) []
    = Ok (length (@nil num)) ([] ++ [Some (mar15_2024_noon - 150 * msPerMinute)])%list.
Proof.
  assert (E : new_Date host_utc (InNumber (mar15_2024_noon - 150 * msPerMinute)) []
              = Ok (Some (mar15_2024_noon - 150 * msPerMinute)) []) by reflexivity.
  assert (Hy : ~ two_digit_year (YearFromTime (mar15_2024_noon - 150 * msPerMinute))).
  { assert (Y : YearFromTime (mar15_2024_noon - 150 * msPerMinute) = 2024) by (vm_compute; reflexivity).
    unfold two_digit_year. lia. }
  split; [exact E | split; [exact Hy | exact (factory_unnormalized_exact host_utc _ [] _ E Hy)]].
Defined.

(** X2: with the default options, a valid instant other than 8.64e15, in a
    year other than 0..99, is stored as noon UTC of its own UTC day, so the
    Date Value has the UTC year, month and day of the input. *)
Theorem factory_noon_same_date (H : host) (i : input_date) (h : heap) (t : Z) :
  new_Date H i h = Ok (Some t) h -> ~ two_digit_year (YearFromTime t) -> t <> maxTime ->
  let h' := (h ++ [Some (Day t * msPerDay + 12 * msPerHour)])%list in
  XBDateFactory H i None h = Ok (length h) h' /\
  getYear (length h) h' = Ok (Some (YearFromTime t)) h' /\
  getMonth (length h) h' = Ok (Some (MonthFromTime t)) h' /\
  getDate (length h) h' = Ok (Some (DateFromTime t)) h'.
Proof.
  intros E Hy Hne h'. pose proof (new_Date_clipped H i h h t E) as [Ht _].
  assert (Hn12 : 0 <= 12 * msPerHour < msPerDay) by (unfold msPerHour, msPerDay; lia).
  destruct (fields_of_same_day t (Day t) _ Hn12 eq_refl) as (Ey & Em & Ed).
  split.
  - unfold XBDateFactory, bind. rewrite E. cbn [options_normalize].
    rewrite normalizeToUTC_plain by exact Hy. rewrite time_clip_idem.
    rewrite time_clip_in by (apply (noon_in_range t (Day t)); auto). reflexivity.
  - unfold getYear, getMonth, getDate, getter, bind, read, ret. subst h'.
    rewrite alloc_lookup. cbn [getUTCFullYear getUTCMonth getUTCDate option_map].
    rewrite Ey, Em, Ed. repeat split.
Qed.

Lemma factory_noon_same_date_witness :
  new_Date host_utc (InNumber (mar15_2024_noon - 150 * msPerMinute)) []
    = Ok (Some (mar15_2024_noon - 150 * msPerMinute)) [] /\
  ~ two_digit_year (YearFromTime (mar15_2024_noon - 150 * msPerMinute)) /\
  mar15_2024_noon - 150 * msPerMinute <> maxTime /\
  let t := mar15_2024_noon - 150 * msPerMinute in
  let h' := ([] ++ [Some (Day t * msPerDay + 12 * msPerHour)])%list in
  XBDateFactory host_utc (InNumber t) None [] = Ok (length (@nil num)) h' /\
  getYear (length (@nil num)) h' = Ok (Some (YearFromTime t)) h' /\
  getMonth (length (@nil num)) h' = Ok (Some (MonthFromTime t)) h' /\
  getDate (length (@nil num)) h' = Ok (Some (DateFromTime t)) h'.
Proof.
  assert (E : new_Date host_utc (InNumber (mar15_2024_noon - 150 * msPerMinute)) []
              = Ok (Some (mar15_2024_noon - 150 * msPerMinute)) []) by reflexivity.
  assert (Hy : ~ two_digit_year (YearFromTime (mar15_2024_noon - 150 * msPerMinute))).
  { assert (Y : YearFromTime (mar15_2024_noon - 150 * msPerMinute) = 2024) by (vm_compute; reflexivity).
    unfold two_digit_year. lia. }
  assert (Hne : mar15_2024_noon - 150 * msPerMinute <> maxTime) by (vm_compute; discriminate).
  split; [exact E | split; [exact Hy | split; [exact Hne |]]].
  exact (factory_noon_same_date host_utc _ [] _ E Hy Hne).
Defined.

(** X3: an instant of a year 0..99 (on a day 1..28 of its month) is moved
    to the same month and day of the year 1900 + y, whatever the options:
    [Date.UTC] reads its year argument 0..99 as 1900..1999. *)
Theorem factory_two_digit_year (H : host) (i : input_date) (opt : option bool) (h : heap) (t : Z) :
  new_Date H i h = Ok (Some t) h -> two_digit_year (YearFromTime t) -> DateFromTime t <= 28 ->
  exists h', XBDateFactory H i opt h = Ok (length h) h' /\
    getYear (length h) h' = Ok (Some (1900 + YearFromTime t)) h' /\
    getMonth (length h) h' = Ok (Some (MonthFromTime t)) h' /\
    getDate (length h) h' = Ok (Some (DateFromTime t)) h'.
Proof.
  intros E Hy Hd. pose proof (month_date_range t) as Hr.
  pose proof (norm_tod_range (options_normalize opt) t) as Htod.
  set (k := days_from_civil (1900 + YearFromTime t) (MonthFromTime t + 1) (DateFromTime t)).
  assert (Hk : -100000 <= k <= 100000)
    by (apply days_from_civil_1900s; unfold two_digit_year in Hy; lia).
  set (tod := if options_normalize opt then 12 * msPerHour else TimeWithinDay t) in *.
  exists (h ++ [Some (k * msPerDay + tod)])%list. split.
  - unfold XBDateFactory, bind. rewrite E.
    rewrite normalizeToUTC_two_digit by exact Hy. rewrite time_clip_idem.
    rewrite time_clip_in by (unfold maxTime, msPerDay in *; lia). reflexivity.
  - destruct (fields_of_civil (1900 + YearFromTime t) (MonthFromTime t + 1) (DateFromTime t) tod
                ltac:(lia) ltac:(lia) Htod) as (Ey & Em & Ed).
    unfold getYear, getMonth, getDate, getter, bind, read, ret.
    rewrite alloc_lookup. cbn [getUTCFullYear getUTCMonth getUTCDate option_map].
    subst k. rewrite Ey, Em, Ed. replace (MonthFromTime t + 1 - 1) with (MonthFromTime t) by lia.
    repeat split.
Qed.

(** 0050-06-15T12:00:00Z *)
Definition jun15_0050_noon : Z := days_from_civil 50 6 15 * msPerDay + 12 * msPerHour.

Lemma factory_two_digit_year_witness :
  new_Date host_utc (InNumber jun15_0050_noon) [] = Ok (Some jun15_0050_noon) [] /\
  two_digit_year (YearFromTime jun15_0050_noon) /\ DateFromTime jun15_0050_noon <= 28 /\
  exists h', XBDateFactory host_utc (InNumber jun15_0050_noon) None [] = Ok (length (@nil num)) h' /\
    getYear (length (@nil num)) h' = Ok (Some (1900 + YearFromTime jun15_0050_noon)) h' /\
    getMonth (length (@nil num)) h' = Ok (Some (MonthFromTime jun15_0050_noon)) h' /\
    getDate (length (@nil num)) h' = Ok (Some (DateFromTime jun15_0050_noon)) h'.
Proof.
  assert (E : new_Date host_utc (InNumber jun15_0050_noon) [] = Ok (Some jun15_0050_noon) [])
    by reflexivity.
  assert (Hy : two_digit_year (YearFromTime jun15_0050_noon)).
  { assert (Y : YearFromTime jun15_0050_noon = 50) by (vm_compute; reflexivity).
    unfold two_digit_year. lia. }
  assert (Hd : DateFromTime jun15_0050_noon <= 28) by (vm_compute; discriminate).
  split; [exact E | split; [exact Hy | split; [exact Hd |]]].
  exact (factory_two_digit_year host_utc _ None [] _ E Hy Hd).
Defined.

(** X4: the [Date] object of a Date Value never holds a year 0..99; with
    the default options its time of day is always noon UTC. *)
Theorem factory_stored_shape (H : host) (i : input_date) (opt : option bool) (h h' : heap)
    (l : loc) (z : Z) :
  XBDateFactory H i opt h = Ok l h' -> h' !! l = Some (Some z) ->
  ~ two_digit_year (YearFromTime z) /\ Z.abs z <= maxTime /\
  (options_normalize opt = true -> TimeWithinDay z = 12 * msPerHour).
Proof.
  intros E Hz. unfold XBDateFactory, bind, alloc in E.
  destruct (new_Date H i h) as [d h0 |] eqn:Ed; [|discriminate].
  apply new_Date_heap in Ed. subst h0. inversion E; subst. rewrite alloc_lookup in Hz.
  injection Hz as Hz. destruct d as [t |].
  - apply (normalized_shape t z _ Hz).
  - destruct (options_normalize opt); discriminate.
Qed.

Lemma factory_stored_shape_witness :
  XBDateFactory host_utc (InNumber jun15_0050_noon) None []
    = Ok 0%nat [Some (days_from_civil 1950 6 15 * msPerDay + 12 * msPerHour)] /\
  [Some (days_from_civil 1950 6 15 * msPerDay + 12 * msPerHour)] !! 0%nat
    = Some (Some (days_from_civil 1950 6 15 * msPerDay + 12 * msPerHour)) /\
  (~ two_digit_year (YearFromTime (days_from_civil 1950 6 15 * msPerDay + 12 * msPerHour)) /\
   Z.abs (days_from_civil 1950 6 15 * msPerDay + 12 * msPerHour) <= maxTime /\
   (options_normalize None = true ->
    TimeWithinDay (days_from_civil 1950 6 15 * msPerDay + 12 * msPerHour) = 12 * msPerHour)).
Proof.
  assert (E : XBDateFactory host_utc (InNumber jun15_0050_noon) None []
              = Ok 0%nat [Some (days_from_civil 1950 6 15 * msPerDay + 12 * msPerHour)])
    by (vm_compute; reflexivity).
  split; [exact E | split; [reflexivity |]].
  exact (factory_stored_shape host_utc _ None [] _ 0%nat _ E eq_refl).
Defined.

(** X5: building a Date Value from the [Date] of another one
    ([XBDateFactory(d.get(), options)]) with the options that built it
    reproduces its instant: normalization is idempotent. *)
Theorem factory_idempotent (H : host) (i : input_date) (opt : option bool) (h h1 : heap)
    (l : loc) (v : num) :
  XBDateFactory H i opt h = Ok l h1 -> h1 !! l = Some v ->
  XBDateFactory H (InDate l) opt h1 = Ok (length h1) (h1 ++ [v])%list.
Proof.
  intros E Hv.
  assert (Hfix : time_clip (normalizeToUTC (time_clip v) (options_normalize opt)) = v).
  { unfold XBDateFactory, bind, alloc in E.
    destruct (new_Date H i h) as [d h0 |] eqn:Ed; [|discriminate].
    apply new_Date_heap in Ed. subst h0. inversion E; subst.
    rewrite alloc_lookup in Hv. injection Hv as Hv.
    destruct v as [z |].
    - destruct d as [t |]; [| destruct (options_normalize opt); discriminate].
      destruct (normalized_shape t z _ Hv) as (Hy & Hz & Hnoon).
      rewrite time_clip_in by exact Hz. rewrite normalizeToUTC_plain by exact Hy.
      rewrite time_clip_idem.
      replace (if options_normalize opt then 12 * msPerHour else TimeWithinDay z)
        with (TimeWithinDay z)
        by (destruct (options_normalize opt); [rewrite Hnoon |]; reflexivity).
      rewrite (proj1 (day_split z)). apply time_clip_in. exact Hz.
    - destruct (options_normalize opt); reflexivity. }
  unfold XBDateFactory, bind. cbn [new_Date]. unfold bind, read, ret. rewrite Hv.
  rewrite Hfix. reflexivity.
Qed.

Lemma factory_idempotent_witness :
  XBDateFactory host_utc (InNumber jun15_0050_noon) None []
    = Ok 0%nat [Some (days_from_civil 1950 6 15 * msPerDay + 12 * msPerHour)] /\
  [Some (days_from_civil 1950 6 15 * msPerDay + 12 * msPerHour)] !! 0%nat
    = Some (Some (days_from_civil 1950 6 15 * msPerDay + 12 * msPerHour)) /\
  XBDateFactory host_utc (InDate 0%nat) None [Some (days_from_civil 1950 6 15 * msPerDay + 12 * msPerHour)]
    = Ok (length [Some (days_from_civil 1950 6 15 * msPerDay + 12 * msPerHour)])
         ([Some (days_from_civil 1950 6 15 * msPerDay + 12 * msPerHour)]
          ++ [Some (days_from_civil 1950 6 15 * msPerDay + 12 * msPerHour)])%list.
Proof.
  assert (E : XBDateFactory host_utc (InNumber jun15_0050_noon) None []
              = Ok 0%nat [Some (days_from_civil 1950 6 15 * msPerDay + 12 * msPerHour)])
    by (vm_compute; reflexivity).
  split; [exact E | split; [reflexivity |]].
  exact (factory_idempotent host_utc _ None [] _ 0%nat _ E eq_refl).
Defined.

(** ** Accessors *)

Lemma read_some (l : loc) (h : heap) (v : num) : h !! l = Some v -> read l h = Ok v h.
Proof. intros Hl. unfold read. rewrite Hl. reflexivity. Qed.

Lemma WeekDay_range (t : Z) : 0 <= WeekDay t <= 6.
Proof. unfold WeekDay. pose proof (Z.mod_pos_bound (Day t + 4) 7 ltac:(lia)). lia. Qed.

(** X6: on a valid date the accessors read the UTC fields of [utcDate]
    without touching the heap, and return a month 0..11, a day of the
    month 1..31, a weekday 0..6, an hour 0..23, and minutes and seconds
    0..59. *)
Theorem getter_ranges (l : loc) (h : heap) (z : Z) :
  h !! l = Some (Some z) ->
  exists m d w hr mi s,
    getMonth l h = Ok (Some m) h /\ 0 <= m <= 11 /\
    getDate l h = Ok (Some d) h /\ 1 <= d <= 31 /\
    getWeekday l h = Ok (Some w) h /\ 0 <= w <= 6 /\
    getHours l h = Ok (Some hr) h /\ 0 <= hr <= 23 /\
    getMinutes l h = Ok (Some mi) h /\ 0 <= mi <= 59 /\
    getSeconds l h = Ok (Some s) h /\ 0 <= s <= 59.
Proof.
  intros Hl. pose proof (month_date_range z) as [Hm Hd]. pose proof (WeekDay_range z) as Hw.
  unfold getMonth, getDate, getWeekday, getHours, getMinutes, getSeconds, getter, bind, ret.
  rewrite (read_some l h _ Hl). cbn [getUTCMonth getUTCDate getUTCDay getUTCHours getUTCMinutes getUTCSeconds option_map].
  exists (MonthFromTime z), (DateFromTime z), (WeekDay z), (HourFromTime z), (MinFromTime z),
    (SecFromTime z).
  unfold HourFromTime, MinFromTime, SecFromTime.
  pose proof (Z.mod_pos_bound (z / msPerHour) 24 ltac:(lia)).
  pose proof (Z.mod_pos_bound (z / msPerMinute) 60 ltac:(lia)).
  pose proof (Z.mod_pos_bound (z / msPerSecond) 60 ltac:(lia)).
  repeat split; lia.
Qed.

Lemma getter_ranges_witness :
  [Some mar15_2024_noon] !! 0%nat = Some (Some mar15_2024_noon) /\
  exists m d w hr mi s,
    getMonth 0%nat [Some mar15_2024_noon] = Ok (Some m) [Some mar15_2024_noon] /\ 0 <= m <= 11 /\
    getDate 0%nat [Some mar15_2024_noon] = Ok (Some d) [Some mar15_2024_noon] /\ 1 <= d <= 31 /\
    getWeekday 0%nat [Some mar15_2024_noon] = Ok (Some w) [Some mar15_2024_noon] /\ 0 <= w <= 6 /\
    getHours 0%nat [Some mar15_2024_noon] = Ok (Some hr) [Some mar15_2024_noon] /\ 0 <= hr <= 23 /\
    getMinutes 0%nat [Some mar15_2024_noon] = Ok (Some mi) [Some mar15_2024_noon] /\ 0 <= mi <= 59 /\
    getSeconds 0%nat [Some mar15_2024_noon] = Ok (Some s) [Some mar15_2024_noon] /\ 0 <= s <= 59.
Proof. split; [reflexivity | apply (getter_ranges 0%nat [Some mar15_2024_noon] mar15_2024_noon); reflexivity]. Defined.

(** ** [set] *)

Lemma insert_lookup_same (h : heap) (l : loc) (v w : num) :
  h !! l = Some w -> (<[l := v]> h) !! l = Some v.
Proof. intros Hl. apply list_lookup_insert_eq. eapply lookup_lt_Some. exact Hl. Qed.

(** [set] reads the fields, then writes [utcDate] three times. *)
Lemma xb_set_value (l : loc) (values : set_values) (h : heap) (tv : num) :
  h !! l = Some tv ->
  let year := match sv_year values with Some v => Some v | None => getUTCFullYear tv end in
  let month := match sv_month values with Some v => Some v | None => getUTCMonth tv end in
  let day := match sv_day values with Some v => Some v | None => getUTCDate tv end in
  xb_set l values h
  = Ok (VXB l) (<[l := setUTCDate (setUTCMonth (setUTCFullYear tv year) month) day]> h).
Proof.
  intros Hl year month day.
  assert (Hw : forall h0 v w, h0 !! l = Some w -> write l v h0 = Ok tt (<[l := v]> h0))
    by (intros h0 v w E; unfold write; rewrite E; reflexivity).
  unfold xb_set, bind, ret. rewrite (read_some l h tv Hl). fold year month day.
  pose proof (insert_lookup_same h l (setUTCFullYear tv year) tv Hl) as H1.
  cbv beta iota. rewrite (read_some l h tv Hl). cbv beta iota. rewrite (Hw h _ tv Hl). cbv beta iota. rewrite (read_some _ _ _ H1).
  cbv beta iota.
  pose proof (insert_lookup_same _ l (setUTCMonth (setUTCFullYear tv year) month) _ H1) as H2.
  rewrite (Hw _ _ _ H1). cbv beta iota. rewrite (read_some _ _ _ H2). cbv beta iota.
  rewrite (Hw _ _ _ H2). cbv beta iota.
  unfold loc, heap in *. rewrite !list_insert_insert_eq. reflexivity.
Qed.

Lemma setUTCFullYear_same (t : Z) : Z.abs t <= maxTime ->
  setUTCFullYear (Some t) (Some (YearFromTime t)) = Some t.
Proof.
  intros Ht. unfold setUTCFullYear. rewrite MakeDay_fields. cbn [MakeDate].
  rewrite (proj1 (day_split t)). apply time_clip_in. exact Ht.
Qed.

Lemma setUTCMonth_same (t : Z) : Z.abs t <= maxTime ->
  setUTCMonth (Some t) (Some (MonthFromTime t)) = Some t.
Proof.
  intros Ht. unfold setUTCMonth. rewrite MakeDay_fields. cbn [MakeDate].
  rewrite (proj1 (day_split t)). apply time_clip_in. exact Ht.
Qed.

Lemma setUTCDate_same (t : Z) : Z.abs t <= maxTime ->
  setUTCDate (Some t) (Some (DateFromTime t)) = Some t.
Proof.
  intros Ht. unfold setUTCDate. rewrite MakeDay_fields. cbn [MakeDate].
  rewrite (proj1 (day_split t)). apply time_clip_in. exact Ht.
Qed.

(** For a month 0..11 MakeDay computes the day number of the calendar
    date. *)
Lemma MakeDay_civil (y m d : Z) : 0 <= m <= 11 ->
  MakeDay (Some y) (Some m) (Some d) = Some (days_from_civil y (m + 1) d).
Proof.
  intros Hm. unfold MakeDay. rewrite Z.div_small, Z.mod_small by lia.
  rewrite (days_from_civil_date y (m + 1) d). replace (y + 0) with y by lia. reflexivity.
Qed.

Lemma MakeDay_shift (y m d d0 : Z) :
  MakeDay (Some y) (Some m) (Some d)
  = option_map (fun k => k + (d - d0)) (MakeDay (Some y) (Some m) (Some d0)).
Proof.
  cbv [MakeDay option_map].
  replace (days_from_civil (y + m / 12) (m mod 12 + 1) 1 + d - 1)
    with (days_from_civil (y + m / 12) (m mod 12 + 1) 1 + d0 - 1 + (d - d0)) by lia.
  reflexivity.
Qed.

(** X7: [set()] and [set({})] leave the Date Value as it is, valid or
    not. *)
Theorem set_empty_identity (l : loc) (h : heap) (tv : num) :
  h !! l = Some tv -> time_clip tv = tv -> xb_set l no_values h = Ok (VXB l) h.
Proof.
  intros Hl Hc. rewrite (xb_set_value l no_values h tv Hl). cbn [sv_year sv_month sv_day no_values].
  assert (E : setUTCDate (setUTCMonth (setUTCFullYear tv (getUTCFullYear tv)) (getUTCMonth tv))
                (getUTCDate tv) = tv).
  { destruct tv as [t |]; [| reflexivity].
    assert (Ht : Z.abs t <= maxTime).
    { simpl in Hc. destruct (Z.leb_spec (Z.abs t) maxTime); [assumption | discriminate]. }
    cbn [getUTCFullYear getUTCMonth getUTCDate option_map].
    rewrite setUTCFullYear_same, setUTCMonth_same, setUTCDate_same by exact Ht. reflexivity. }
  rewrite E. unfold loc, heap in *. rewrite list_insert_id by exact Hl. reflexivity.
Qed.

Lemma set_empty_identity_witness :
  [Some mar15_2024_noon] !! 0%nat = Some (Some mar15_2024_noon) /\
  time_clip (Some mar15_2024_noon) = Some mar15_2024_noon /\
  xb_set 0%nat no_values [Some mar15_2024_noon] = Ok (VXB 0%nat) [Some mar15_2024_noon].
Proof.
  assert (E1 : [Some mar15_2024_noon] !! 0%nat = Some (Some mar15_2024_noon)) by reflexivity.
  assert (E2 : time_clip (Some mar15_2024_noon) = Some mar15_2024_noon) by reflexivity.
  split; [exact E1 | split; [exact E2 |]].
  exact (set_empty_identity 0%nat [Some mar15_2024_noon] (Some mar15_2024_noon) E1 E2).
Defined.

(** X8: [set({ day: d })] moves the date by [d - getDate()] days, keeping
    the time of day; a day beyond the month or below 1 rolls over into
    the neighbouring months. *)
Theorem set_day_shift (l : loc) (h : heap) (t d : Z) :
  h !! l = Some (Some t) -> Z.abs t <= maxTime ->
  xb_set l (mk_set_values None None (Some d)) h
  = Ok (VXB l) (<[l := time_clip (Some (t + (d - DateFromTime t) * msPerDay))]> h).
Proof.
  intros Hl Ht. rewrite (xb_set_value l _ h _ Hl). cbn [sv_year sv_month sv_day].
  cbn [getUTCFullYear getUTCMonth option_map].
  rewrite setUTCFullYear_same, setUTCMonth_same by exact Ht.
  assert (E : setUTCDate (Some t) (Some d) = time_clip (Some (t + (d - DateFromTime t) * msPerDay))).
  { unfold setUTCDate.
    rewrite (MakeDay_shift (YearFromTime t) (MonthFromTime t) d (DateFromTime t)), MakeDay_fields.
    cbv [option_map MakeDate].
    replace ((Day t + (d - DateFromTime t)) * msPerDay + TimeWithinDay t)
      with (t + (d - DateFromTime t) * msPerDay); [reflexivity|].
    pose proof (day_split t) as [Es _]. unfold msPerDay in *. lia. }
  rewrite E. reflexivity.
Qed.

Lemma set_day_shift_witness :
  [Some jan31_2024_noon] !! 0%nat = Some (Some jan31_2024_noon) /\
  Z.abs jan31_2024_noon <= maxTime /\
  xb_set 0%nat (mk_set_values None None (Some 0)) [Some jan31_2024_noon]
  = Ok (VXB 0%nat) (<[0%nat := time_clip (Some (jan31_2024_noon
                       + (0 - DateFromTime jan31_2024_noon) * msPerDay))]> [Some jan31_2024_noon]).
Proof.
  assert (Ht : Z.abs jan31_2024_noon <= maxTime) by (unfold jan31_2024_noon, maxTime; lia).
  split; [reflexivity | split; [exact Ht |]].
  exact (set_day_shift 0%nat [Some jan31_2024_noon] jan31_2024_noon 0 eq_refl Ht).
Defined.

Lemma MakeDay_any (y m d : Z) :
  MakeDay (Some y) (Some m) (Some d) = Some (days_from_civil (y + m / 12) (m mod 12 + 1) d).
Proof. cbv [MakeDay]. rewrite (days_from_civil_date _ _ d). reflexivity. Qed.

Lemma time_clip_out (z : Z) : maxTime < Z.abs z -> time_clip (Some z) = None.
Proof. intros Hz. simpl. destruct (Z.leb_spec (Z.abs z) maxTime); [lia | reflexivity]. Qed.

(** X9: [set({ month: m })] on a day 1..28 moves to that day of month
    [m mod 12] of the year [getYear() + floor(m / 12)] (a month beyond
    0..11 rolls over into the neighbouring years), keeping the time of
    day. *)
Theorem set_month_value (l : loc) (h : heap) (t m : Z) :
  h !! l = Some (Some t) -> Z.abs t <= maxTime -> DateFromTime t <= 28 ->
  let k := days_from_civil (YearFromTime t + m / 12) (m mod 12 + 1) (DateFromTime t) in
  xb_set l (mk_set_values None (Some m) None) h
  = Ok (VXB l) (<[l := time_clip (Some (k * msPerDay + TimeWithinDay t))]> h) /\
  (Z.abs (k * msPerDay + TimeWithinDay t) <= maxTime ->
   YearFromTime (k * msPerDay + TimeWithinDay t) = YearFromTime t + m / 12 /\
   MonthFromTime (k * msPerDay + TimeWithinDay t) = m mod 12 /\
   DateFromTime (k * msPerDay + TimeWithinDay t) = DateFromTime t).
Proof.
  intros Hl Ht Hd k. pose proof (month_date_range t) as [_ Hd1].
  pose proof (day_split t) as [_ Htod].
  pose proof (Z.mod_pos_bound m 12 ltac:(lia)) as Hm.
  destruct (fields_of_civil (YearFromTime t + m / 12) (m mod 12 + 1) (DateFromTime t)
              (TimeWithinDay t) ltac:(lia) ltac:(lia) Htod) as (Ey & Em & Ed).
  fold k in Ey, Em, Ed. split.
  - rewrite (xb_set_value l _ h _ Hl). cbn [sv_year sv_month sv_day].
    cbn [getUTCFullYear getUTCDate option_map].
    rewrite setUTCFullYear_same by exact Ht.
    assert (E2 : setUTCMonth (Some t) (Some m) = time_clip (Some (k * msPerDay + TimeWithinDay t)))
      by (unfold setUTCMonth; rewrite MakeDay_any; reflexivity).
    rewrite E2.
    destruct (Z.le_gt_cases (Z.abs (k * msPerDay + TimeWithinDay t)) maxTime) as [Hin | Hout].
    + rewrite time_clip_in by exact Hin.
      rewrite <- Ed. rewrite setUTCDate_same by exact Hin. reflexivity.
    + rewrite time_clip_out by exact Hout. reflexivity.
  - intros _. rewrite Ey, Ed. split; [reflexivity | split; [lia | reflexivity]].
Qed.

Lemma set_month_value_witness :
  [Some mar15_2024_noon] !! 0%nat = Some (Some mar15_2024_noon) /\
  Z.abs mar15_2024_noon <= maxTime /\ DateFromTime mar15_2024_noon <= 28 /\
  let k := days_from_civil (YearFromTime mar15_2024_noon + 13 / 12) (13 mod 12 + 1)
             (DateFromTime mar15_2024_noon) in
  xb_set 0%nat (mk_set_values None (Some 13) None) [Some mar15_2024_noon]
  = Ok (VXB 0%nat) (<[0%nat := time_clip (Some (k * msPerDay + TimeWithinDay mar15_2024_noon))]>
                      [Some mar15_2024_noon]) /\
  (Z.abs (k * msPerDay + TimeWithinDay mar15_2024_noon) <= maxTime ->
   YearFromTime (k * msPerDay + TimeWithinDay mar15_2024_noon) = YearFromTime mar15_2024_noon + 13 / 12 /\
   MonthFromTime (k * msPerDay + TimeWithinDay mar15_2024_noon) = 13 mod 12 /\
   DateFromTime (k * msPerDay + TimeWithinDay mar15_2024_noon) = DateFromTime mar15_2024_noon).
Proof.
  assert (E1 : [Some mar15_2024_noon] !! 0%nat = Some (Some mar15_2024_noon)) by reflexivity.
  assert (Ht : Z.abs mar15_2024_noon <= maxTime) by (unfold mar15_2024_noon, maxTime; lia).
  assert (Hd : DateFromTime mar15_2024_noon <= 28) by (vm_compute; discriminate).
  split; [exact E1 | split; [exact Ht | split; [exact Hd |]]].
  exact (set_month_value 0%nat [Some mar15_2024_noon] mar15_2024_noon 13 E1 Ht Hd).
Defined.

(** X10: [set({ year: y })] on a day 1..28 moves to the same month and
    day of the year [y], keeping the time of day; unlike the factory, a
    year 0..99 is kept as it is. *)
Theorem set_year_value (l : loc) (h : heap) (t y : Z) :
  h !! l = Some (Some t) -> Z.abs t <= maxTime -> DateFromTime t <= 28 ->
  let k := days_from_civil y (MonthFromTime t + 1) (DateFromTime t) in
  xb_set l (mk_set_values (Some y) None None) h
  = Ok (VXB l) (<[l := time_clip (Some (k * msPerDay + TimeWithinDay t))]> h) /\
  (Z.abs (k * msPerDay + TimeWithinDay t) <= maxTime ->
   YearFromTime (k * msPerDay + TimeWithinDay t) = y /\
   MonthFromTime (k * msPerDay + TimeWithinDay t) = MonthFromTime t /\
   DateFromTime (k * msPerDay + TimeWithinDay t) = DateFromTime t).
Proof.
  intros Hl Ht Hd k. pose proof (month_date_range t) as [Hm Hd1].
  pose proof (day_split t) as [_ Htod].
  destruct (fields_of_civil y (MonthFromTime t + 1) (DateFromTime t) (TimeWithinDay t)
              ltac:(lia) ltac:(lia) Htod) as (Ey & Em & Ed).
  fold k in Ey, Em, Ed. replace (MonthFromTime t + 1 - 1) with (MonthFromTime t) in Em by lia.
  split.
  - rewrite (xb_set_value l _ h _ Hl). cbn [sv_year sv_month sv_day].
    cbn [getUTCMonth getUTCDate option_map].
    assert (E1 : setUTCFullYear (Some t) (Some y) = time_clip (Some (k * msPerDay + TimeWithinDay t)))
      by (unfold setUTCFullYear; rewrite MakeDay_civil by exact Hm; reflexivity).
    rewrite E1.
    destruct (Z.le_gt_cases (Z.abs (k * msPerDay + TimeWithinDay t)) maxTime) as [Hin | Hout].
    + rewrite time_clip_in by exact Hin.
      rewrite <- Em. rewrite setUTCMonth_same by exact Hin.
      rewrite <- Ed. rewrite setUTCDate_same by exact Hin. reflexivity.
    + rewrite time_clip_out by exact Hout. reflexivity.
  - intros _. rewrite Ey, Em, Ed. repeat split.
Qed.

Lemma set_year_value_witness :
  [Some mar15_2024_noon] !! 0%nat = Some (Some mar15_2024_noon) /\
  Z.abs mar15_2024_noon <= maxTime /\ DateFromTime mar15_2024_noon <= 28 /\
  let k := days_from_civil 50 (MonthFromTime mar15_2024_noon + 1) (DateFromTime mar15_2024_noon) in
  xb_set 0%nat (mk_set_values (Some 50) None None) [Some mar15_2024_noon]
  = Ok (VXB 0%nat) (<[0%nat := time_clip (Some (k * msPerDay + TimeWithinDay mar15_2024_noon))]>
                      [Some mar15_2024_noon]) /\
  (Z.abs (k * msPerDay + TimeWithinDay mar15_2024_noon) <= maxTime ->
   YearFromTime (k * msPerDay + TimeWithinDay mar15_2024_noon) = 50 /\
   MonthFromTime (k * msPerDay + TimeWithinDay mar15_2024_noon) = MonthFromTime mar15_2024_noon /\
   DateFromTime (k * msPerDay + TimeWithinDay mar15_2024_noon) = DateFromTime mar15_2024_noon).
Proof.
  assert (E1 : [Some mar15_2024_noon] !! 0%nat = Some (Some mar15_2024_noon)) by reflexivity.
  assert (Ht : Z.abs mar15_2024_noon <= maxTime) by (unfold mar15_2024_noon, maxTime; lia).
  assert (Hd : DateFromTime mar15_2024_noon <= 28) by (vm_compute; discriminate).
  split; [exact E1 | split; [exact Ht | split; [exact Hd |]]].
  exact (set_year_value 0%nat [Some mar15_2024_noon] mar15_2024_noon 50 E1 Ht Hd).
Defined.




(** X12: on an invalid date, [set] with year, month or day omitted leaves
    the date invalid: the omitted field is read from the invalid date as
    NaN. *)
Theorem set_invalid_partial (l : loc) (h : heap) (v : set_values) :
  h !! l = Some None -> sv_year v = None \/ sv_month v = None \/ sv_day v = None ->
  xb_set l v h = Ok (VXB l) h.
Proof.
  intros Hl Hv. rewrite (xb_set_value l v h None Hl).
  assert (E : forall year month day,
             year = None \/ month = None \/ day = None ->
             setUTCDate (setUTCMonth (setUTCFullYear None year) month) day = None).
  { intros year month day [-> | [-> | ->]].
    - reflexivity.
    - destruct (setUTCFullYear None year); reflexivity.
    - destruct (setUTCMonth (setUTCFullYear None year) month) as [z |]; [|reflexivity].
      unfold setUTCDate, MakeDay. destruct (Some (YearFromTime z)), (Some (MonthFromTime z));
        reflexivity. }
  rewrite E.
  - unfold loc, heap in *. rewrite list_insert_id by exact Hl. reflexivity.
  - destruct v as [[y|] [m|] [d|]]; cbn in Hv |- *;
      intuition discriminate.
Qed.

Lemma set_invalid_partial_witness :
  [@None Z] !! 0%nat = Some None /\
  (sv_year (mk_set_values None (Some 5) (Some 10)) = None \/
   sv_month (mk_set_values None (Some 5) (Some 10)) = None \/
   sv_day (mk_set_values None (Some 5) (Some 10)) = None) /\
  xb_set 0%nat (mk_set_values None (Some 5) (Some 10)) [None] = Ok (VXB 0%nat) [None].
Proof.
  assert (E : [@None Z] !! 0%nat = Some None) by reflexivity.
  assert (Hv : sv_year (mk_set_values None (Some 5) (Some 10)) = None \/
               sv_month (mk_set_values None (Some 5) (Some 10)) = None \/
               sv_day (mk_set_values None (Some 5) (Some 10)) = None) by (left; reflexivity).
  split; [exact E | split; [exact Hv |]].
  exact (set_invalid_partial 0%nat [None] _ E Hv).
Defined.

(** ** [add] and [subtract] with one key *)

(** The one-key [add]: the helper builds a local-time [Date] from the
    shifted UTC fields (the host offset is subtracted), then a Date Value
    from it with the default options. *)
Lemma add_one_value (H : host) (l : loc) (h : heap) (t : Z) (key : string) (v : Z) :
  h !! l = Some (Some t) -> ~ two_digit_year (YearFromTime t + increment key v "year") ->
  let k := days_from_civil
             (YearFromTime t + increment key v "year" + (MonthFromTime t + increment key v "month") / 12)
             ((MonthFromTime t + increment key v "month") mod 12 + 1)
             (DateFromTime t + increment key v "day") in
  let local := time_clip (Some (k * msPerDay + TimeWithinDay t - h_offset H)) in
  xb_add H l (Some [(key, v)]) h
  = Ok (VXB (length (h ++ [local])%list))
       ((h ++ [local]) ++ [time_clip (normalizeToUTC local true)])%list.
Proof.
  intros Hl Hy k local.
  assert (El : Date_local H
                 (num_add (getUTCFullYear (Some t)) (increment key v "year"))
                 (num_add (getUTCMonth (Some t)) (increment key v "month"))
                 (num_add (getUTCDate (Some t)) (increment key v "day"))
                 (getUTCHours (Some t)) (getUTCMinutes (Some t)) (getUTCSeconds (Some t))
                 (getUTCMilliseconds (Some t)) = local).
  { unfold Date_local. cbn [num_add getUTCFullYear getUTCMonth getUTCDate getUTCHours
      getUTCMinutes getUTCSeconds getUTCMilliseconds option_map].
    unfold full_year.
    replace ((0 <=? YearFromTime t + increment key v "year")
             && (YearFromTime t + increment key v "year" <=? 99)) with false.
    - rewrite MakeDay_any, MakeTime_fields. reflexivity.
    - symmetry. apply not_true_iff_false. intros E. apply andb_prop in E as [E1 E2].
      apply Z.leb_le in E1, E2. apply Hy. split; assumption. }
  unfold xb_add. cbn [reduce_keys]. unfold add, bind, ret.
  rewrite (read_some l h _ Hl). cbv beta iota. rewrite El.
  unfold alloc. cbv beta iota.
  unfold XBDateFactory, bind. cbn [new_Date]. unfold bind.
  rewrite (read_some _ _ _ (alloc_lookup h local)). cbv beta iota.
  unfold ret, alloc. cbv beta iota. cbn [options_normalize].
  subst local. rewrite !time_clip_idem. reflexivity.
Qed.

(** X13: a key other than [year], [month] and [day] adds nothing: the
    helper's [increment] only reads those three keys, so [add({ week: 2 })]
    is [add({ day: 0 })]. *)
Theorem add_unknown_key (H : host) (l : loc) (h : heap) (key : string) (v : Z) :
  ~ In key ["year"; "month"; "day"] ->
  xb_add H l (Some [(key, v)]) h = xb_add H l (Some [("day", 0)]) h.
Proof.
  intros Hk.
  assert (Hz : forall u, In u ["year"; "month"; "day"] -> increment key v u = 0).
  { intros u Hu. unfold increment. destruct (String.eqb_spec u key) as [-> | _]; [contradiction | reflexivity]. }
  assert (R1 : increment "day" 0 "year" = 0) by reflexivity.
  assert (R2 : increment "day" 0 "month" = 0) by reflexivity.
  assert (R3 : increment "day" 0 "day" = 0) by reflexivity.
  unfold xb_add. cbn [reduce_keys]. unfold add.
  rewrite (Hz "year"), (Hz "month"), (Hz "day"), R1, R2, R3 by (simpl; tauto).
  reflexivity.
Qed.

Lemma add_unknown_key_witness :
  ~ In "week" ["year"; "month"; "day"] /\
  xb_add host_utc 0%nat (Some [("week", 2)]) [Some mar15_2024_noon]
  = xb_add host_utc 0%nat (Some [("day", 0)]) [Some mar15_2024_noon].
Proof.
  assert (Hk : ~ In "week" ["year"; "month"; "day"]) by (simpl; intuition discriminate).
  split; [exact Hk | exact (add_unknown_key host_utc 0%nat _ "week" 2 Hk)].
Defined.

Lemma reduce_keys_negate (H : host) (acc : jsval) (entries : list (string * Z)) (h : heap) :
  reduce_keys (fun newDate key v => add H newDate key (-1 * v)) acc entries h
  = reduce_keys (fun newDate key v => add H newDate key v) acc
      (map (fun '(k, v) => (k, -1 * v)) entries) h.
Proof.
  revert acc h. induction entries as [| [k v] rest IH]; intros acc h; [reflexivity|].
  cbn [reduce_keys map]. unfold bind. destruct (add H acc k (-1 * v) h); [apply IH | reflexivity].
Qed.

(** X14: [subtract(m)] is [add] of the mapping with every value negated
    (both fold the same helper over [Object.keys]). *)
Theorem subtract_is_add_negated (H : host) (l : loc) (m : option (list (string * Z))) (h : heap) :
  xb_subtract H l m h = xb_add H l (option_map (map (fun '(k, v) => (k, -1 * v))) m) h.
Proof.
  unfold xb_subtract, xb_add. rewrite reduce_keys_negate.
  destruct m; reflexivity.
Qed.

(** X15: [add({ day: n })] on a Date Value at noon UTC whose year is
    outside 0..99, in a host whose offset [o] (positive east of UTC)
    satisfies -12 h < o < 36 h, with a result year outside 0..99 and
    within the time-value range: the result is noon UTC of the day [n]
    days later when o <= 12 h, and of the day [n - 1] days later when
    o > 12 h (such as UTC+13), where the helper's local-time constructor
    moves it one day back. *)
Theorem add_day_offset (H : host) (l : loc) (h : heap) (t n : Z) :
  h !! l = Some (Some t) -> TimeWithinDay t = 12 * msPerHour ->
  ~ two_digit_year (YearFromTime t) ->
  -12 * msPerHour < h_offset H < 36 * msPerHour ->
  let k' := Day t + n - (if h_offset H <=? 12 * msPerHour then 0 else 1) in
  ~ two_digit_year (YearFromTime (k' * msPerDay)) ->
  Z.abs (k' * msPerDay) + 2 * msPerDay <= maxTime ->
  exists h', xb_add H l (Some [("day", n)]) h = Ok (VXB (S (length h))) h' /\
    h' !! (S (length h)) = Some (Some (k' * msPerDay + 12 * msPerHour)).
Proof.
  intros Hl Hnoon Hy Ho k' Hy' Hr.
  assert (Iy : increment "day" n "year" = 0) by reflexivity.
  assert (Im : increment "day" n "month" = 0) by reflexivity.
  assert (Id : increment "day" n "day" = n) by reflexivity.
  assert (Hy0 : ~ two_digit_year (YearFromTime t + increment "day" n "year"))
    by (rewrite Iy, Z.add_0_r; exact Hy).
  pose proof (add_one_value H l h t "day" n Hl Hy0) as E. cbv zeta in E.
  rewrite Iy, Im, Id, !Z.add_0_r in E.
  assert (Ek : days_from_civil (YearFromTime t + MonthFromTime t / 12) (MonthFromTime t mod 12 + 1)
                 (DateFromTime t + n) = Day t + n).
  { pose proof (MakeDay_fields t) as Hmd. rewrite MakeDay_any in Hmd. injection Hmd as Hmd.
    rewrite days_from_civil_date in Hmd |- *. lia. }
  rewrite Ek, Hnoon in E.
  set (r := 12 * msPerHour - h_offset H + (if h_offset H <=? 12 * msPerHour then 0 else msPerDay)).
  assert (Hrr : 0 <= r < msPerDay)
    by (subst r; destruct (Z.leb_spec (h_offset H) (12 * msPerHour));
        unfold msPerDay, msPerHour in *; lia).
  assert (Et : (Day t + n) * msPerDay + 12 * msPerHour - h_offset H = k' * msPerDay + r)
    by (subst k' r; destruct (Z.leb_spec (h_offset H) (12 * msPerHour)); lia).
  rewrite Et in E.
  assert (Hin : Z.abs (k' * msPerDay + r) <= maxTime)
    by (unfold msPerDay, maxTime in *; lia).
  rewrite time_clip_in in E by exact Hin.
  destruct (fields_of_same_day (k' * msPerDay + 0) k' r Hrr) as (Ey & _).
  { symmetry. apply (Day_of_day k' 0). unfold msPerDay; lia. }
  rewrite Z.add_0_r in Ey.
  rewrite normalizeToUTC_plain in E by (rewrite Ey; exact Hy').
  rewrite (proj1 (Day_of_day _ _ Hrr)) in E.
  eexists. split; [rewrite E; rewrite length_app; simpl; rewrite Nat.add_1_r; reflexivity|].
  replace (S (length h)) with (length (h ++ [Some (k' * msPerDay + r)]))%list
    by (rewrite length_app; simpl; lia).
  etransitivity; [apply alloc_lookup|]. f_equal.
  assert (Hz : (Z.abs (k' * msPerDay + 12 * msPerHour) <=? maxTime) = true)
    by (apply Z.leb_le; unfold msPerHour, msPerDay, maxTime in *; lia).
  cbv [time_clip]. rewrite Hz. rewrite Hz. reflexivity.
Qed.

Lemma add_day_offset_witness :
  [Some mar15_2024_noon] !! 0%nat = Some (Some mar15_2024_noon) /\
  TimeWithinDay mar15_2024_noon = 12 * msPerHour /\
  ~ two_digit_year (YearFromTime mar15_2024_noon) /\
  -12 * msPerHour < h_offset host_tonga < 36 * msPerHour /\
  let k' := Day mar15_2024_noon + 1 - (if h_offset host_tonga <=? 12 * msPerHour then 0 else 1) in
  ~ two_digit_year (YearFromTime (k' * msPerDay)) /\
  Z.abs (k' * msPerDay) + 2 * msPerDay <= maxTime /\
  exists h', xb_add host_tonga 0%nat (Some [("day", 1)]) [Some mar15_2024_noon]
               = Ok (VXB (S (length [Some mar15_2024_noon]))) h' /\
    h' !! (S (length [Some mar15_2024_noon])) = Some (Some (k' * msPerDay + 12 * msPerHour)).
Proof.
  assert (E : [Some mar15_2024_noon] !! 0%nat = Some (Some mar15_2024_noon)) by reflexivity.
  assert (Hn : TimeWithinDay mar15_2024_noon = 12 * msPerHour) by (vm_compute; reflexivity).
  assert (Hy : ~ two_digit_year (YearFromTime mar15_2024_noon)).
  { assert (Y : YearFromTime mar15_2024_noon = 2024) by (vm_compute; reflexivity).
    unfold two_digit_year. lia. }
  assert (Ho : -12 * msPerHour < h_offset host_tonga < 36 * msPerHour)
    by (unfold host_tonga, fixed_offset_host, msPerHour; simpl; lia).
  assert (Hy' : ~ two_digit_year (YearFromTime
            ((Day mar15_2024_noon + 1 - (if h_offset host_tonga <=? 12 * msPerHour then 0 else 1))
             * msPerDay))).
  { assert (Y : YearFromTime
            ((Day mar15_2024_noon + 1 - (if h_offset host_tonga <=? 12 * msPerHour then 0 else 1))
             * msPerDay) = 2024) by (vm_compute; reflexivity).
    unfold two_digit_year. lia. }
  assert (Hr : Z.abs ((Day mar15_2024_noon + 1 - (if h_offset host_tonga <=? 12 * msPerHour then 0 else 1))
             * msPerDay) + 2 * msPerDay <= maxTime) by (vm_compute; discriminate).
  split; [exact E | split; [exact Hn | split; [exact Hy | split; [exact Ho |]]]].
  split; [exact Hy' | split; [exact Hr |]].
  exact (add_day_offset host_tonga 0%nat _ mar15_2024_noon 1 E Hn Hy Ho Hy' Hr).
Defined.

(** In a host at UTC, a one-key [add] that leaves the day of the month
    alone yields the calendar day its shifted year and month name, at noon. *)
Lemma add_utc_value (H : host) (l : loc) (h : heap) (t : Z) (key : string) (v : Z) :
  h_offset H = 0 -> h !! l = Some (Some t) -> DateFromTime t <= 28 ->
  increment key v "day" = 0 ->
  ~ two_digit_year (YearFromTime t + increment key v "year") ->
  let y' := YearFromTime t + increment key v "year" + (MonthFromTime t + increment key v "month") / 12 in
  let m' := (MonthFromTime t + increment key v "month") mod 12 in
  ~ two_digit_year y' ->
  Z.abs (days_from_civil y' (m' + 1) (DateFromTime t) * msPerDay) + msPerDay <= maxTime ->
  exists h1, length h1 = S (length h) /\
    xb_add H l (Some [(key, v)]) h
    = Ok (VXB (length h1)) (h1 ++ [Some (days_from_civil y' (m' + 1) (DateFromTime t) * msPerDay
                                         + 12 * msPerHour)])%list.
Proof.
  intros Ho Hl Hd Hday Hy y' m' Hy' Hr.
  pose proof (add_one_value H l h t key v Hl Hy) as E. cbv zeta in E.
  rewrite Hday, Z.add_0_r, Ho, Z.sub_0_r in E. fold y' m' in E.
  set (k := days_from_civil y' (m' + 1) (DateFromTime t)) in *.
  pose proof (month_date_range t) as [_ Hd1].
  pose proof (day_split t) as [_ Htod].
  pose proof (Z.mod_pos_bound (MonthFromTime t + increment key v "month") 12 ltac:(lia)) as Hm.
  fold m' in Hm.
  rewrite time_clip_in in E by (unfold msPerDay, maxTime in *; lia).
  destruct (fields_of_civil y' (m' + 1) (DateFromTime t) (TimeWithinDay t) ltac:(lia) ltac:(lia) Htod)
    as (Ey & _ & _).
  fold k in Ey.
  rewrite normalizeToUTC_plain in E by (rewrite Ey; exact Hy').
  rewrite (proj1 (Day_of_day _ _ Htod)), time_clip_idem in E.
  rewrite (time_clip_in (k * msPerDay + 12 * msPerHour)) in E
    by (unfold msPerHour, msPerDay, maxTime in *; lia).
  exists (h ++ [Some (k * msPerDay + TimeWithinDay t)])%list. split; [|exact E].
  rewrite length_app. simpl. lia.
Qed.

(** The getters of a Date Value stored at noon of a calendar day. *)
Lemma getters_of_noon (l : loc) (h : heap) (y m d : Z) :
  1 <= m <= 12 -> 1 <= d <= 28 ->
  h !! l = Some (Some (days_from_civil y m d * msPerDay + 12 * msPerHour)) ->
  getYear l h = Ok (Some y) h /\ getMonth l h = Ok (Some (m - 1)) h /\
  getDate l h = Ok (Some d) h /\ getHours l h = Ok (Some 12) h.
Proof.
  intros Hm Hd Hl.
  assert (Hn12 : 0 <= 12 * msPerHour < msPerDay) by (unfold msPerHour, msPerDay; lia).
  destruct (fields_of_civil y m d _ Hm Hd Hn12) as (Ey & Em & Ed).
  destruct (time_fields_of_day (days_from_civil y m d) _ Hn12) as (E1 & _).
  unfold getYear, getMonth, getDate, getHours, getter, bind, ret.
  rewrite (read_some l h _ Hl).
  cbn [getUTCFullYear getUTCMonth getUTCDate getUTCHours option_map].
  rewrite Ey, Em, Ed, E1. repeat split; reflexivity.
Qed.

(** X16: in a host at UTC, [add({ month: n })] on a date whose day of
    the month is at most 28 and whose year [Y] is outside 0..99 gives
    year [Y + floor((M + n) / 12)], month [(M + n) mod 12], the same day
    of the month, at noon, provided that target year is outside 0..99
    and the result within the time-value range. *)
Theorem add_month_utc (H : host) (l : loc) (h : heap) (t n : Z) :
  h_offset H = 0 -> h !! l = Some (Some t) -> DateFromTime t <= 28 ->
  ~ two_digit_year (YearFromTime t) ->
  ~ two_digit_year (YearFromTime t + (MonthFromTime t + n) / 12) ->
  Z.abs (days_from_civil (YearFromTime t + (MonthFromTime t + n) / 12)
           ((MonthFromTime t + n) mod 12 + 1) (DateFromTime t) * msPerDay) + msPerDay <= maxTime ->
  exists h', xb_add H l (Some [("month", n)]) h = Ok (VXB (S (length h))) h' /\
    getYear (S (length h)) h' = Ok (Some (YearFromTime t + (MonthFromTime t + n) / 12)) h' /\
    getMonth (S (length h)) h' = Ok (Some ((MonthFromTime t + n) mod 12)) h' /\
    getDate (S (length h)) h' = Ok (Some (DateFromTime t)) h' /\
    getHours (S (length h)) h' = Ok (Some 12) h'.
Proof.
  intros Ho Hl Hd Hy Hy' Hr.
  assert (Iy : increment "month" n "year" = 0) by reflexivity.
  assert (Im : increment "month" n "month" = n) by reflexivity.
  assert (Id : increment "month" n "day" = 0) by reflexivity.
  assert (Hy0 : ~ two_digit_year (YearFromTime t + increment "month" n "year"))
    by (rewrite Iy, Z.add_0_r; exact Hy).
  assert (Hy1 : ~ two_digit_year (YearFromTime t + increment "month" n "year"
                   + (MonthFromTime t + increment "month" n "month") / 12))
    by (rewrite Iy, Im, Z.add_0_r; exact Hy').
  assert (Hr1 : Z.abs (days_from_civil (YearFromTime t + increment "month" n "year"
                   + (MonthFromTime t + increment "month" n "month") / 12)
                   ((MonthFromTime t + increment "month" n "month") mod 12 + 1) (DateFromTime t)
                   * msPerDay) + msPerDay <= maxTime)
    by (rewrite Iy, Im, Z.add_0_r; exact Hr).
  destruct (add_utc_value H l h t "month" n Ho Hl Hd Id Hy0 Hy1 Hr1) as (h1 & Hlen & E).
  rewrite Iy, Im, Z.add_0_r in E. rewrite Hlen in E.
  pose proof (month_date_range t) as [_ Hd1].
  pose proof (Z.mod_pos_bound (MonthFromTime t + n) 12 ltac:(lia)) as Hm.
  pose proof (getters_of_noon (length h1) _ (YearFromTime t + (MonthFromTime t + n) / 12)
                ((MonthFromTime t + n) mod 12 + 1) (DateFromTime t) ltac:(lia) ltac:(lia)
                (alloc_lookup h1 _)) as Hg.
  rewrite Z.add_simpl_r, Hlen in Hg.
  eexists. split; [exact E | exact Hg].
Qed.

Lemma add_month_utc_witness :
  h_offset host_utc = 0 /\
  [Some mar15_2024_noon] !! 0%nat = Some (Some mar15_2024_noon) /\
  DateFromTime mar15_2024_noon <= 28 /\
  ~ two_digit_year (YearFromTime mar15_2024_noon) /\
  ~ two_digit_year (YearFromTime mar15_2024_noon + (MonthFromTime mar15_2024_noon + 11) / 12) /\
  Z.abs (days_from_civil (YearFromTime mar15_2024_noon + (MonthFromTime mar15_2024_noon + 11) / 12)
           ((MonthFromTime mar15_2024_noon + 11) mod 12 + 1) (DateFromTime mar15_2024_noon) * msPerDay)
    + msPerDay <= maxTime /\
  exists h', xb_add host_utc 0%nat (Some [("month", 11)]) [Some mar15_2024_noon]
               = Ok (VXB (S (length [Some mar15_2024_noon]))) h' /\
    getYear (S (length [Some mar15_2024_noon])) h'
      = Ok (Some (YearFromTime mar15_2024_noon + (MonthFromTime mar15_2024_noon + 11) / 12)) h' /\
    getMonth (S (length [Some mar15_2024_noon])) h'
      = Ok (Some ((MonthFromTime mar15_2024_noon + 11) mod 12)) h' /\
    getDate (S (length [Some mar15_2024_noon])) h' = Ok (Some (DateFromTime mar15_2024_noon)) h' /\
    getHours (S (length [Some mar15_2024_noon])) h' = Ok (Some 12) h'.
Proof.
  assert (Ho : h_offset host_utc = 0) by reflexivity.
  assert (E : [Some mar15_2024_noon] !! 0%nat = Some (Some mar15_2024_noon)) by reflexivity.
  assert (Hd : DateFromTime mar15_2024_noon <= 28) by (vm_compute; discriminate).
  assert (Hy : ~ two_digit_year (YearFromTime mar15_2024_noon)).
  { assert (Y : YearFromTime mar15_2024_noon = 2024) by (vm_compute; reflexivity).
    unfold two_digit_year. lia. }
  assert (Hy' : ~ two_digit_year (YearFromTime mar15_2024_noon + (MonthFromTime mar15_2024_noon + 11) / 12)).
  { assert (Y : YearFromTime mar15_2024_noon + (MonthFromTime mar15_2024_noon + 11) / 12 = 2025)
      by (vm_compute; reflexivity).
    unfold two_digit_year. lia. }
  assert (Hr : Z.abs (days_from_civil (YearFromTime mar15_2024_noon + (MonthFromTime mar15_2024_noon + 11) / 12)
           ((MonthFromTime mar15_2024_noon + 11) mod 12 + 1) (DateFromTime mar15_2024_noon) * msPerDay)
    + msPerDay <= maxTime) by (vm_compute; discriminate).
  split; [exact Ho | split; [exact E | split; [exact Hd | split; [exact Hy | split; [exact Hy' |]]]]].
  split; [exact Hr |].
  exact (add_month_utc host_utc 0%nat _ mar15_2024_noon 11 Ho E Hd Hy Hy' Hr).
Defined.

(** X17: in a host at UTC, [add({ year: n })] on a date whose day of the
    month is at most 28 gives year [Y + n], the same month and day of the
    month, at noon, provided [Y + n] is outside 0..99 and the result
    within the time-value range. *)
Theorem add_year_utc (H : host) (l : loc) (h : heap) (t n : Z) :
  h_offset H = 0 -> h !! l = Some (Some t) -> DateFromTime t <= 28 ->
  ~ two_digit_year (YearFromTime t + n) ->
  Z.abs (days_from_civil (YearFromTime t + n) (MonthFromTime t + 1) (DateFromTime t) * msPerDay)
    + msPerDay <= maxTime ->
  exists h', xb_add H l (Some [("year", n)]) h = Ok (VXB (S (length h))) h' /\
    getYear (S (length h)) h' = Ok (Some (YearFromTime t + n)) h' /\
    getMonth (S (length h)) h' = Ok (Some (MonthFromTime t)) h' /\
    getDate (S (length h)) h' = Ok (Some (DateFromTime t)) h' /\
    getHours (S (length h)) h' = Ok (Some 12) h'.
Proof.
  intros Ho Hl Hd Hy Hr.
  assert (Iy : increment "year" n "year" = n) by reflexivity.
  assert (Im : increment "year" n "month" = 0) by reflexivity.
  assert (Id : increment "year" n "day" = 0) by reflexivity.
  pose proof (month_date_range t) as [Hm0 Hd1].
  assert (Md : MonthFromTime t / 12 = 0) by (apply Z.div_small; lia).
  assert (Mm : MonthFromTime t mod 12 = MonthFromTime t) by (apply Z.mod_small; lia).
  assert (Hy0 : ~ two_digit_year (YearFromTime t + increment "year" n "year")) by (rewrite Iy; exact Hy).
  assert (Hy1 : ~ two_digit_year (YearFromTime t + increment "year" n "year"
                   + (MonthFromTime t + increment "year" n "month") / 12))
    by (rewrite Iy, Im, Z.add_0_r, Md, Z.add_0_r; exact Hy).
  assert (Hr1 : Z.abs (days_from_civil (YearFromTime t + increment "year" n "year"
                   + (MonthFromTime t + increment "year" n "month") / 12)
                   ((MonthFromTime t + increment "year" n "month") mod 12 + 1) (DateFromTime t)
                   * msPerDay) + msPerDay <= maxTime)
    by (rewrite Iy, Im, Z.add_0_r, Md, Mm, Z.add_0_r; exact Hr).
  destruct (add_utc_value H l h t "year" n Ho Hl Hd Id Hy0 Hy1 Hr1) as (h1 & Hlen & E).
  rewrite Iy, Im, Z.add_0_r, Md, Mm, Z.add_0_r in E. rewrite Hlen in E.
  pose proof (getters_of_noon (length h1) _ (YearFromTime t + n)
                (MonthFromTime t + 1) (DateFromTime t) ltac:(lia) ltac:(lia)
                (alloc_lookup h1 _)) as Hg.
  rewrite Z.add_simpl_r, Hlen in Hg.
  eexists. split; [exact E | exact Hg].
Qed.

Lemma add_year_utc_witness :
  h_offset host_utc = 0 /\
  [Some mar15_2024_noon] !! 0%nat = Some (Some mar15_2024_noon) /\
  DateFromTime mar15_2024_noon <= 28 /\
  ~ two_digit_year (YearFromTime mar15_2024_noon + (-1)) /\
  Z.abs (days_from_civil (YearFromTime mar15_2024_noon + (-1)) (MonthFromTime mar15_2024_noon + 1)
           (DateFromTime mar15_2024_noon) * msPerDay) + msPerDay <= maxTime /\
  exists h', xb_add host_utc 0%nat (Some [("year", -1)]) [Some mar15_2024_noon]
               = Ok (VXB (S (length [Some mar15_2024_noon]))) h' /\
    getYear (S (length [Some mar15_2024_noon])) h' = Ok (Some (YearFromTime mar15_2024_noon + (-1))) h' /\
    getMonth (S (length [Some mar15_2024_noon])) h' = Ok (Some (MonthFromTime mar15_2024_noon)) h' /\
    getDate (S (length [Some mar15_2024_noon])) h' = Ok (Some (DateFromTime mar15_2024_noon)) h' /\
    getHours (S (length [Some mar15_2024_noon])) h' = Ok (Some 12) h'.
Proof.
  assert (Ho : h_offset host_utc = 0) by reflexivity.
  assert (E : [Some mar15_2024_noon] !! 0%nat = Some (Some mar15_2024_noon)) by reflexivity.
  assert (Hd : DateFromTime mar15_2024_noon <= 28) by (vm_compute; discriminate).
  assert (Hy : ~ two_digit_year (YearFromTime mar15_2024_noon + (-1))).
  { assert (Y : YearFromTime mar15_2024_noon = 2024) by (vm_compute; reflexivity).
    unfold two_digit_year. lia. }
  assert (Hr : Z.abs (days_from_civil (YearFromTime mar15_2024_noon + (-1)) (MonthFromTime mar15_2024_noon + 1)
           (DateFromTime mar15_2024_noon) * msPerDay) + msPerDay <= maxTime) by (vm_compute; discriminate).
  split; [exact Ho | split; [exact E | split; [exact Hd | split; [exact Hy | split; [exact Hr |]]]]].
  exact (add_year_utc host_utc 0%nat _ mar15_2024_noon (-1) Ho E Hd Hy Hr).
Defined.

(** ** [is] *)

Lemma compare_converse (a b : num) :
  compare "<" a b = compare ">" b a /\ compare "<=" a b = compare ">=" b a.
Proof.
  destruct a as [x|], b as [y|]; cbn [compare String.eqb Ascii.eqb Bool.eqb];
    try (split; reflexivity).
  rewrite Z.gtb_ltb, Z.geb_leb. split; reflexivity.
Qed.

(** X18: [a.is('<', b, p)] is [b.is('>', a, p)] and [a.is('<=', b, p)]
    is [b.is('>=', a, p)], for any two Date Values and precision (valid
    or not). *)
Theorem is_converse (l1 l2 : loc) (p : date_unit) (h : heap) :
  xb_is l1 "<" l2 p h = xb_is l2 ">" l1 p h /\ xb_is l1 "<=" l2 p h = xb_is l2 ">=" l1 p h.
Proof.
  assert (G1 : getSafeOperator "<" = "<") by reflexivity.
  assert (G2 : getSafeOperator ">" = ">") by reflexivity.
  assert (G3 : getSafeOperator "<=" = "<=") by reflexivity.
  assert (G4 : getSafeOperator ">=" = ">=") by reflexivity.
  unfold xb_is, bind, read, ret. rewrite G1, G2, G3, G4.
  destruct (h !! l1) as [t1|] eqn:E1, (h !! l2) as [t2|] eqn:E2; cbv beta iota;
    rewrite ?E1; cbv beta iota; try (split; reflexivity).
  destruct (compare_converse (js_number (getComparableDate t1 p)) (js_number (getComparableDate t2 p)))
    as [C1 C2].
  rewrite C1, C2. split; reflexivity.
Qed.

Lemma js_number_invalid (p : date_unit) : js_number (getComparableDate None p) = None.
Proof. destruct p; reflexivity. Qed.

(** X19: when either Date Value is the invalid date, [is] returns false,
    whatever the operator and the precision. *)
Theorem is_invalid_false (l1 l2 : loc) (t1 t2 : num) (op : string) (p : date_unit) (h : heap) :
  h !! l1 = Some t1 -> h !! l2 = Some t2 -> t1 = None \/ t2 = None ->
  xb_is l1 op l2 p h = Ok false h.
Proof.
  intros E1 E2 Hn. rewrite (xb_is_value h l1 l2 t1 t2 op p E1 E2).
  destruct Hn as [-> | ->]; rewrite js_number_invalid; [reflexivity|].
  destruct (js_number (getComparableDate t1 p)); reflexivity.
Qed.

Lemma is_invalid_false_witness :
  [Some mar15_2024_noon; None] !! 0%nat = Some (Some mar15_2024_noon) /\
  [Some mar15_2024_noon; None] !! 1%nat = Some None /\
  (Some mar15_2024_noon = None \/ None = @None Z) /\
  xb_is 0%nat "==" 1%nat unit_year [Some mar15_2024_noon; None] = Ok false [Some mar15_2024_noon; None].
Proof.
  assert (E1 : [Some mar15_2024_noon; None] !! 0%nat = Some (Some mar15_2024_noon)) by reflexivity.
  assert (E2 : [Some mar15_2024_noon; None] !! 1%nat = Some None) by reflexivity.
  assert (Hn : Some mar15_2024_noon = None \/ None = @None Z) by (right; reflexivity).
  split; [exact E1 | split; [exact E2 | split; [exact Hn |]]].
  exact (is_invalid_false 0%nat 1%nat _ _ "==" unit_year _ E1 E2 Hn).
Defined.

(** X20: [is('<=', ...)] is the disjunction of [is('<', ...)] and
    [is('=', ...)], for any two readable Date Values and precision. *)
Theorem is_le_lt_or_eq (l1 l2 : loc) (t1 t2 : num) (p : date_unit) (h : heap) :
  h !! l1 = Some t1 -> h !! l2 = Some t2 ->
  exists b1 b2, xb_is l1 "<" l2 p h = Ok b1 h /\ xb_is l1 "=" l2 p h = Ok b2 h /\
    xb_is l1 "<=" l2 p h = Ok (b1 || b2) h.
Proof.
  intros E1 E2. rewrite !(xb_is_value h l1 l2 t1 t2 _ p E1 E2).
  assert (G1 : getSafeOperator "<" = "<") by reflexivity.
  assert (G2 : getSafeOperator "=" = "===") by reflexivity.
  assert (G3 : getSafeOperator "<=" = "<=") by reflexivity.
  rewrite G1, G2, G3.
  eexists _, _. split; [reflexivity | split; [reflexivity|]]. f_equal.
  destruct (js_number (getComparableDate t1 p)) as [x|], (js_number (getComparableDate t2 p)) as [y|];
    try reflexivity.
  cbn [compare String.eqb Ascii.eqb Bool.eqb].
  destruct (Z.leb_spec x y), (Z.ltb_spec x y), (Z.eqb_spec x y); try reflexivity; lia.
Qed.

Lemma is_le_lt_or_eq_witness :
  [Some mar15_2024_noon; Some jan31_2024_noon] !! 0%nat = Some (Some mar15_2024_noon) /\
  [Some mar15_2024_noon; Some jan31_2024_noon] !! 1%nat = Some (Some jan31_2024_noon) /\
  exists b1 b2,
    xb_is 0%nat "<" 1%nat unit_month [Some mar15_2024_noon; Some jan31_2024_noon]
      = Ok b1 [Some mar15_2024_noon; Some jan31_2024_noon] /\
    xb_is 0%nat "=" 1%nat unit_month [Some mar15_2024_noon; Some jan31_2024_noon]
      = Ok b2 [Some mar15_2024_noon; Some jan31_2024_noon] /\
    xb_is 0%nat "<=" 1%nat unit_month [Some mar15_2024_noon; Some jan31_2024_noon]
      = Ok (b1 || b2) [Some mar15_2024_noon; Some jan31_2024_noon].
Proof.
  assert (E1 : [Some mar15_2024_noon; Some jan31_2024_noon] !! 0%nat = Some (Some mar15_2024_noon))
    by reflexivity.
  assert (E2 : [Some mar15_2024_noon; Some jan31_2024_noon] !! 1%nat = Some (Some jan31_2024_noon))
    by reflexivity.
  split; [exact E1 | split; [exact E2 |]].
  exact (is_le_lt_or_eq 0%nat 1%nat _ _ unit_month _ E1 E2).
Defined.

(** X21: a valid Date Value whose UTC year is not negative compared with
    itself: [=], [>=] and [<=] are true and [<] and [>] false, at every
    precision. *)
Theorem is_reflexive (l : loc) (t : Z) (p : date_unit) (h : heap) :
  h !! l = Some (Some t) -> 0 <= YearFromTime t ->
  xb_is l "=" l p h = Ok true h /\ xb_is l ">=" l p h = Ok true h /\
  xb_is l "<=" l p h = Ok true h /\ xb_is l "<" l p h = Ok false h /\
  xb_is l ">" l p h = Ok false h.
Proof.
  intros E Hy. rewrite !(xb_is_value h l l _ _ _ p E E).
  rewrite !comparable_number by exact Hy. rewrite !compare_order, !Z.compare_refl.
  repeat split; reflexivity.
Qed.

Lemma is_reflexive_witness :
  [Some mar15_2024_noon] !! 0%nat = Some (Some mar15_2024_noon) /\
  0 <= YearFromTime mar15_2024_noon /\
  xb_is 0%nat "=" 0%nat unit_day [Some mar15_2024_noon] = Ok true [Some mar15_2024_noon] /\
  xb_is 0%nat ">=" 0%nat unit_day [Some mar15_2024_noon] = Ok true [Some mar15_2024_noon] /\
  xb_is 0%nat "<=" 0%nat unit_day [Some mar15_2024_noon] = Ok true [Some mar15_2024_noon] /\
  xb_is 0%nat "<" 0%nat unit_day [Some mar15_2024_noon] = Ok false [Some mar15_2024_noon] /\
  xb_is 0%nat ">" 0%nat unit_day [Some mar15_2024_noon] = Ok false [Some mar15_2024_noon].
Proof.
  assert (E : [Some mar15_2024_noon] !! 0%nat = Some (Some mar15_2024_noon)) by reflexivity.
  assert (Hy : 0 <= YearFromTime mar15_2024_noon) by (vm_compute; discriminate).
  split; [exact E | split; [exact Hy |]].
  exact (is_reflexive 0%nat mar15_2024_noon unit_day _ E Hy).
Defined.

(** X22: for valid Date Values with non-negative UTC years, equality at
    day precision implies equality at month and at year precision. *)
Theorem is_day_equal_coarsens (l1 l2 : loc) (t1 t2 : Z) (h : heap) :
  h !! l1 = Some (Some t1) -> h !! l2 = Some (Some t2) ->
  0 <= YearFromTime t1 -> 0 <= YearFromTime t2 ->
  xb_is l1 "=" l2 unit_day h = Ok true h ->
  xb_is l1 "=" l2 unit_month h = Ok true h /\ xb_is l1 "=" l2 unit_year h = Ok true h.
Proof.
  intros E1 E2 Hy1 Hy2.
  rewrite !(xb_is_value h l1 l2 _ _ "=" _ E1 E2).
  rewrite !comparable_number by assumption. rewrite !compare_order, !comparable_order.
  assert (G : getSafeOperator "=" = "===") by reflexivity. rewrite G.
  unfold calendar_key. cbn [COMPARE_TO firstn lex_compare].
  intros Hd. injection Hd as Hd.
  destruct (Z.compare_spec (YearFromTime t1) (YearFromTime t2)) as [Ey | Ey | Ey];
    [| discriminate | discriminate].
  destruct (Z.compare_spec (MonthFromTime t1) (MonthFromTime t2)) as [Em | Em | Em];
    [| discriminate | discriminate].
  split; reflexivity.
Qed.

Lemma is_day_equal_coarsens_witness :
  [Some mar15_2024_noon; Some (mar15_2024_noon - 3 * msPerHour)] !! 0%nat = Some (Some mar15_2024_noon) /\
  [Some mar15_2024_noon; Some (mar15_2024_noon - 3 * msPerHour)] !! 1%nat
    = Some (Some (mar15_2024_noon - 3 * msPerHour)) /\
  0 <= YearFromTime mar15_2024_noon /\ 0 <= YearFromTime (mar15_2024_noon - 3 * msPerHour) /\
  xb_is 0%nat "=" 1%nat unit_day [Some mar15_2024_noon; Some (mar15_2024_noon - 3 * msPerHour)]
    = Ok true [Some mar15_2024_noon; Some (mar15_2024_noon - 3 * msPerHour)] /\
  xb_is 0%nat "=" 1%nat unit_month [Some mar15_2024_noon; Some (mar15_2024_noon - 3 * msPerHour)]
    = Ok true [Some mar15_2024_noon; Some (mar15_2024_noon - 3 * msPerHour)] /\
  xb_is 0%nat "=" 1%nat unit_year [Some mar15_2024_noon; Some (mar15_2024_noon - 3 * msPerHour)]
    = Ok true [Some mar15_2024_noon; Some (mar15_2024_noon - 3 * msPerHour)].
Proof.
  assert (E1 : [Some mar15_2024_noon; Some (mar15_2024_noon - 3 * msPerHour)] !! 0%nat
               = Some (Some mar15_2024_noon)) by reflexivity.
  assert (E2 : [Some mar15_2024_noon; Some (mar15_2024_noon - 3 * msPerHour)] !! 1%nat
               = Some (Some (mar15_2024_noon - 3 * msPerHour))) by reflexivity.
  assert (Hy1 : 0 <= YearFromTime mar15_2024_noon) by (vm_compute; discriminate).
  assert (Hy2 : 0 <= YearFromTime (mar15_2024_noon - 3 * msPerHour)) by (vm_compute; discriminate).
  assert (Hd : xb_is 0%nat "=" 1%nat unit_day [Some mar15_2024_noon; Some (mar15_2024_noon - 3 * msPerHour)]
    = Ok true [Some mar15_2024_noon; Some (mar15_2024_noon - 3 * msPerHour)]) by (vm_compute; reflexivity).
  split; [exact E1 | split; [exact E2 | split; [exact Hy1 | split; [exact Hy2 | split; [exact Hd |]]]]].
  exact (is_day_equal_coarsens 0%nat 1%nat _ _ _ E1 E2 Hy1 Hy2 Hd).
Defined.

(** ** [matches] *)

(** ** [toString] *)

Lemma string_length_app (a b : string) :
  String.length (a ++ b)%string = (String.length a + String.length b)%nat.
Proof. induction a as [| x a IH]; simpl; [reflexivity | rewrite IH; reflexivity]. Qed.

Lemma pos_digits_length (f d : nat) (n : Z) (acc : string) :
  0 <= n < 10 ^ Z.of_nat (S d) ->
  (String.length (pos_digits f n acc) <= String.length acc + S d)%nat.
Proof.
  revert d n acc. induction f as [| f IH]; intros d n acc Hn; simpl; [lia|].
  destruct (Z.ltb_spec n 10); simpl; [lia|].
  destruct d as [| d].
  - simpl in Hn. lia.
  - assert (Hq : 0 <= n / 10 < 10 ^ Z.of_nat (S d)).
    { split; [apply Z.div_pos; lia|].
      apply Z.div_lt_upper_bound; [lia|].
      rewrite Nat2Z.inj_succ, Z.pow_succ_r in Hn by lia. lia. }
    specialize (IH d (n / 10) (String (digit_char (n mod 10)) acc) Hq). simpl in IH. lia.
Qed.

Lemma padStart_length (s : string) (k : nat) (c : ascii) :
  (String.length s <= k)%nat -> String.length (padStart s k c) = k.
Proof.
  intros Hs. unfold padStart. rewrite string_length_app.
  assert (R : forall m, String.length (String.concat "" (repeat (String c EmptyString) m)) = m).
  { induction m as [| m IH]; [reflexivity|].
    destruct m as [| m]; [reflexivity|].
    transitivity (String.length (String c EmptyString ++ "" ++
                    String.concat "" (repeat (String c EmptyString) (S m)))%string);
      [reflexivity|].
    rewrite !string_length_app, IH. reflexivity. }
  rewrite R. lia.
Qed.

Lemma padded_length (n : Z) (k : nat) :
  0 <= n < 10 ^ Z.of_nat k -> (1 <= k)%nat ->
  String.length (padStart (number_to_string (Some n)) k "0") = k.
Proof.
  intros Hn Hk. apply padStart_length. unfold number_to_string.
  destruct (Z.ltb_spec n 0); [lia|].
  destruct k as [| k]; [lia|].
  pose proof (pos_digits_length (digits_fuel n) k n EmptyString Hn). simpl in *. lia.
Qed.

Lemma year_bound (z : Z) : Z.abs z <= maxTime -> Z.abs (YearFromTime z) < 1000000.
Proof.
  intros Hz. unfold YearFromTime.
  assert (Hd : -100000000 <= Day z <= 100000000)
    by (unfold Day, msPerDay, maxTime in *; Z.div_mod_to_equations; lia).
  pose proof (days_from_civil_of_days (Day z)) as Hc.
  destruct (civil_from_days (Day z)) as [[y m] d]. simpl.
  destruct Hc as (Hm & Hdd & Hk). rewrite <- Hk in Hd.
  unfold days_from_civil in Hd.
  destruct (m <=? 2), (2 <? m); Z.div_mod_to_equations; lia.
Qed.

Lemma msFromTime_range (t : Z) : 0 <= msFromTime t < 1000.
Proof. unfold msFromTime, msPerSecond. apply Z.mod_pos_bound. lia. Qed.

Lemma noon_time_string :
  ("T" ++ padded (Some (HourFromTime (12 * msPerHour))) 2 ++ ":"
   ++ padded (Some (MinFromTime (12 * msPerHour))) 2 ++ ":"
   ++ padded (Some (SecFromTime (12 * msPerHour))) 2 ++ "."
   ++ padded (Some (msFromTime (12 * msPerHour))) 3 ++ "Z")%string = "T12:00:00.000Z".
Proof. vm_compute. reflexivity. Qed.

(** X23: [toString()] of a Date Value held at noon UTC (as every one
    built with the default options) is its UTC date [YYYY-MM-DD] followed
    by [T12:00:00.000Z]. *)
Theorem toString_noon_suffix (l : loc) (h : heap) (z : Z) :
  h !! l = Some (Some z) -> TimeWithinDay z = 12 * msPerHour ->
  xb_toString l h
  = Ok (iso_year (YearFromTime z) ++ "-" ++ padded (Some (MonthFromTime z + 1)) 2 ++ "-"
        ++ padded (Some (DateFromTime z)) 2 ++ "T12:00:00.000Z")%string h.
Proof.
  intros Hl Hn. unfold xb_toString, bind. rewrite (read_some l h _ Hl). cbn [toISOString].
  destruct (day_split z) as [Ez Htod].
  rewrite Hn in Ez, Htod.
  destruct (time_fields_of_day (Day z) _ Htod) as (E1 & E2 & E3 & E4).
  rewrite Ez in E1, E2, E3, E4.
  rewrite E1, E2, E3, E4, noon_time_string. reflexivity.
Qed.

Lemma toString_noon_suffix_witness :
  [Some mar15_2024_noon] !! 0%nat = Some (Some mar15_2024_noon) /\
  TimeWithinDay mar15_2024_noon = 12 * msPerHour /\
  xb_toString 0%nat [Some mar15_2024_noon]
  = Ok (iso_year (YearFromTime mar15_2024_noon) ++ "-"
        ++ padded (Some (MonthFromTime mar15_2024_noon + 1)) 2 ++ "-"
        ++ padded (Some (DateFromTime mar15_2024_noon)) 2 ++ "T12:00:00.000Z")%string
       [Some mar15_2024_noon].
Proof.
  assert (E : [Some mar15_2024_noon] !! 0%nat = Some (Some mar15_2024_noon)) by reflexivity.
  assert (Hn : TimeWithinDay mar15_2024_noon = 12 * msPerHour) by (vm_compute; reflexivity).
  split; [exact E | split; [exact Hn |]].
  exact (toString_noon_suffix 0%nat _ mar15_2024_noon E Hn).
Defined.

(** X24: [toString()] of a valid Date Value is 24 characters long for a
    year in 0..9999 and 27 (with the sign and six year digits) otherwise. *)
Theorem toString_length (l : loc) (h : heap) (z : Z) :
  h !! l = Some (Some z) -> Z.abs z <= maxTime ->
  exists s, xb_toString l h = Ok s h /\
    String.length s = if (0 <=? YearFromTime z) && (YearFromTime z <=? 9999) then 24%nat else 27%nat.
Proof.
  intros Hl Hz. unfold xb_toString, bind. rewrite (read_some l h _ Hl). cbn [toISOString].
  eexists. split; [reflexivity|].
  pose proof (month_date_range z) as [Hm Hd].
  pose proof (msFromTime_range z) as Hms.
  assert (Hh : 0 <= HourFromTime z < 24)
    by (unfold HourFromTime; apply Z.mod_pos_bound; lia).
  assert (Hmi : 0 <= MinFromTime z < 60)
    by (unfold MinFromTime; apply Z.mod_pos_bound; lia).
  assert (Hs : 0 <= SecFromTime z < 60)
    by (unfold SecFromTime; apply Z.mod_pos_bound; lia).
  unfold padded. rewrite !string_length_app.
  rewrite !(padded_length _ 2) by (simpl; lia).
  rewrite (padded_length _ 3) by (simpl; lia).
  pose proof (year_bound z Hz) as Hy.
  unfold iso_year.
  destruct ((0 <=? YearFromTime z) && (YearFromTime z <=? 9999)) eqn:Ey.
  - apply andb_prop in Ey as [Ey1 Ey2]. apply Z.leb_le in Ey1, Ey2.
    rewrite (padded_length _ 4) by (simpl; lia). reflexivity.
  - cbn [String.length]. rewrite (padded_length _ 6) by (simpl; lia). reflexivity.
Qed.

Lemma toString_length_witness :
  [Some mar15_2024_noon] !! 0%nat = Some (Some mar15_2024_noon) /\
  Z.abs mar15_2024_noon <= maxTime /\
  exists s, xb_toString 0%nat [Some mar15_2024_noon] = Ok s [Some mar15_2024_noon] /\
    String.length s = if (0 <=? YearFromTime mar15_2024_noon) && (YearFromTime mar15_2024_noon <=? 9999)
                      then 24%nat else 27%nat.
Proof.
  assert (E : [Some mar15_2024_noon] !! 0%nat = Some (Some mar15_2024_noon)) by reflexivity.
  assert (Hz : Z.abs mar15_2024_noon <= maxTime) by (vm_compute; discriminate).
  split; [exact E | split; [exact Hz |]].
  exact (toString_length 0%nat _ mar15_2024_noon E Hz).
Defined.

(** X25: a single-date constraint naming the receiver's own [Date]
    ([d.matches(d.get())]) is accepted when that Date is valid, is not the
    last instant 8.64e15 and has a UTC year outside 0..99: the candidate
    built from [utcDate] falls on the receiver's UTC day. *)
Theorem matches_own_date (H : host) (l : loc) (h : heap) (t : Z) :
  h !! l = Some (Some t) -> Z.abs t <= maxTime -> t <> maxTime ->
  ~ two_digit_year (YearFromTime t) ->
  xb_matches H l [CDate (InDate l)] h
  = Ok true (h ++ [Some (Day t * msPerDay + 12 * msPerHour)])%list.
Proof.
  intros Hl Ht Hne Hy.
  set (z := Day t * msPerDay + 12 * msPerHour).
  assert (Hz : Z.abs z <= maxTime) by (apply (noon_in_range t (Day t)); auto).
  assert (Hf : XBDateFactory H (InDate l) None h = Ok (length h) (h ++ [Some z])%list).
  { unfold XBDateFactory, bind. cbn [new_Date]. unfold bind.
    rewrite (read_some l h _ Hl). unfold ret. cbv beta iota.
    rewrite time_clip_in by exact Ht. cbn [options_normalize].
    rewrite normalizeToUTC_plain by exact Hy. rewrite time_clip_idem.
    fold z. rewrite time_clip_in by exact Hz. reflexivity. }
  assert (Hl' : (h ++ [Some z])%list !! l = Some (Some t)).
  { unfold heap, loc in *. rewrite lookup_app_l; [exact Hl|].
    apply lookup_lt_Some in Hl. exact Hl. }
  assert (Hn12 : 0 <= 12 * msPerHour < msPerDay) by (unfold msPerHour, msPerDay; lia).
  destruct (fields_of_same_day t (Day t) _ Hn12 eq_refl) as (Ey & Em & Ed). fold z in Ey, Em, Ed.
  unfold xb_matches. cbn [isEmpty]. cbv zeta. unfold bind at 1. rewrite Hf.
  cbv beta iota. cbn [map array_some getConstraintEvaluator]. unfold bind.
  assert (Hc : (h ++ [Some z])%list !! length h = Some (Some z)) by apply alloc_lookup.
  rewrite (read_some _ _ _ Hc). cbv beta iota.
  cbn [new_Date]. unfold bind. rewrite (read_some _ _ _ Hl'). unfold ret. cbv beta iota.
  rewrite time_clip_in by exact Ht.
  rewrite Ey, Em, Ed, !Z.eqb_refl. reflexivity.
Qed.

Lemma matches_own_date_witness :
  [Some jan31_2024_noon] !! 0%nat = Some (Some jan31_2024_noon) /\
  Z.abs jan31_2024_noon <= maxTime /\ jan31_2024_noon <> maxTime /\
  ~ two_digit_year (YearFromTime jan31_2024_noon) /\
  xb_matches host_tonga 0%nat [CDate (InDate 0%nat)] [Some jan31_2024_noon]
  = Ok true ([Some jan31_2024_noon] ++ [Some (Day jan31_2024_noon * msPerDay + 12 * msPerHour)])%list.
Proof.
  assert (E : [Some jan31_2024_noon] !! 0%nat = Some (Some jan31_2024_noon)) by reflexivity.
  assert (Ht : Z.abs jan31_2024_noon <= maxTime) by (vm_compute; discriminate).
  assert (Hne : jan31_2024_noon <> maxTime) by (vm_compute; discriminate).
  assert (Hy : ~ two_digit_year (YearFromTime jan31_2024_noon)).
  { assert (Y : YearFromTime jan31_2024_noon = 2024) by (vm_compute; reflexivity).
    unfold two_digit_year. lia. }
  split; [exact E | split; [exact Ht | split; [exact Hne | split; [exact Hy |]]]].
  exact (matches_own_date host_tonga 0%nat _ jan31_2024_noon E Ht Hne Hy).
Defined.
